(** * Axon Python agent wrapper: registry, execution and streaming handlers

    A shallow embedding of [apps/axon_python/src/axon_python/agent_wrapper.py]:
    the module-level registry [agent_instances], the FastAPI handlers
    [create_agent], [run_agent_sync] (both definitions), [call_tool],
    [log_message], [run_agent_stream], [crash_agent] and the generator
    [run_and_stream].

    Python values decoded from JSON are modelled by [json]; the registry is
    a finite map from agent ids to agents; exceptions are values of [exn]
    threaded through an error monad that also records the effects a handler
    performs (logger calls, [print], calls into the engine, tool calls). *)

From stdpp Require Import base option list strings gmap fin_maps pretty.
From Stdlib Require Import ZArith Ascii String.

Set Warnings "-register-all".

Local Open Scope Z_scope.
Local Open Scope string_scope.
Local Open Scope list_scope.

(** ** JSON-like Python data *)

(** The values [json.loads] produces and [json.dumps] accepts: [None],
    booleans, integers, strings, lists and string-keyed dicts.  A dict is an
    association list in insertion order; a decoded object and a dict literal
    have pairwise distinct keys.  A [string] stands for a Python [str] whose
    code points are below 256, one character per code point. *)
Inductive json : Type :=
| JNull
| JBool (b : bool)
| JInt (z : Z)
| JStr (s : string)
| JList (items : list json)
| JDict (entries : list (string * json)).

(** [key in d] and [d.get(key)] on the entries of a dict. *)
Fixpoint dict_lookup (key : string) (entries : list (string * json)) : option json :=
  match entries with
  | [] => None
  | (k, v) :: rest => if String.eqb k key then Some v else dict_lookup key rest
  end.

(** [d.get(key)]: Python's [None] when the key is absent. *)
Definition dict_get (key : string) (entries : list (string * json)) : json :=
  match dict_lookup key entries with
  | Some v => v
  | None => JNull
  end.

(** [d.get(key, default)]. *)
Definition dict_get_default (key : string) (default : json)
    (entries : list (string * json)) : json :=
  match dict_lookup key entries with
  | Some v => v
  | None => default
  end.

(** [type(v).__name__] for a decoded value. *)
Definition type_name (v : json) : string :=
  match v with
  | JNull => "NoneType"
  | JBool _ => "bool"
  | JInt _ => "int"
  | JStr _ => "str"
  | JList _ => "list"
  | JDict _ => "dict"
  end.

(** ** [json.dumps] with its default arguments *)

Definition dquote : string := String "034"%char EmptyString.

Definition hex_digit (n : N) : ascii :=
  if (n <? 10)%N then ascii_of_N (48 + n) else ascii_of_N (87 + n).

(** ['\\u{0:04x}'] for a code point below 256. *)
Definition unicode_escape (n : N) : string :=
  "\u00" +:+ String (hex_digit (n / 16)) (String (hex_digit (n mod 16)) EmptyString).

(** One character under [ensure_ascii=True]: the quote and the backslash are
    escaped, the control characters with a short form use it, printable
    ASCII is kept and everything else becomes a [\uXXXX] escape. *)
Definition escape_char (c : ascii) : string :=
  let n := N_of_ascii c in
  if (n =? 34)%N then "\" +:+ dquote
  else if (n =? 92)%N then "\\"
  else if (n =? 10)%N then "\n"
  else if (n =? 13)%N then "\r"
  else if (n =? 9)%N then "\t"
  else if (n =? 12)%N then "\f"
  else if (n =? 8)%N then "\b"
  else if ((32 <=? n) && (n <=? 126))%N then String c EmptyString
  else unicode_escape n.

Fixpoint escape_string (s : string) : string :=
  match s with
  | EmptyString => EmptyString
  | String c rest => escape_char c +:+ escape_string rest
  end.

Definition dumps_str (s : string) : string := dquote +:+ escape_string s +:+ dquote.

(** [json.dumps(v)]: items separated by [", "], keys from values by [": "]. *)
Fixpoint json_dumps (v : json) : string :=
  match v with
  | JNull => "null"
  | JBool true => "true"
  | JBool false => "false"
  | JInt z => pretty z
  | JStr s => dumps_str s
  | JList items =>
      "[" +:+
      (fix go (l : list json) : string :=
         match l with
         | [] => ""
         | x :: rest =>
             match rest with
             | [] => json_dumps x
             | _ :: _ => json_dumps x +:+ ", " +:+ go rest
             end
         end) items
      +:+ "]"
  | JDict entries =>
      "{" +:+
      (fix go (l : list (string * json)) : string :=
         match l with
         | [] => ""
         | (k, x) :: rest =>
             match rest with
             | [] => dumps_str k +:+ ": " +:+ json_dumps x
             | _ :: _ => dumps_str k +:+ ": " +:+ json_dumps x +:+ ", " +:+ go rest
             end
         end) entries
      +:+ "}"
  end.

(** ** Exceptions *)

(** The [Exception] instances the handlers can see.  The [except] clauses
    of the module tell apart pydantic's [ValidationError], pydantic_ai's
    [UnexpectedModelBehavior] and everything else; FastAPI's [HTTPException]
    is what the handlers raise themselves.  [PyException] is any other
    exception, given by its class name and by [str(e)].  Signals that are
    not [Exception] instances (task cancellation, generator close) abandon
    the request and are not part of the model. *)
Inductive exn : Type :=
| HTTPException (status_code : Z) (detail : json)
| ValidationError (errors : json) (text : string)
| UnexpectedModelBehavior (text : string)
| PyException (class_name : string) (text : string).

(** [KeyError(key)] for a string key without quotes in it: [str(e)] is the
    [repr] of the key. *)
Definition KeyError (key : string) : exn :=
  PyException "KeyError" ("'" +:+ key +:+ "'").

(** The [NameError] of an unbound global. *)
Definition NameError (name : string) : exn :=
  PyException "NameError" ("name '" +:+ name +:+ "' is not defined").

Definition TypeError (text : string) : exn := PyException "TypeError" text.

(** [e.__class__.__name__]. *)
Definition exn_class_name (e : exn) : string :=
  match e with
  | HTTPException _ _ => "HTTPException"
  | ValidationError _ _ => "ValidationError"
  | UnexpectedModelBehavior _ => "UnexpectedModelBehavior"
  | PyException class_name _ => class_name
  end.

(** ** Objects handed over by the engine and by tools *)

(** A Python object that is either plain JSON-like data or an opaque object
    (a pydantic model, a dataclass, a message object ...) known by its type
    name and by what pydantic_core's [to_jsonable_python] makes of it. *)
Inductive pyobj : Type :=
| PyData (v : json)
| PyObject (type_name : string) (jsonable : exn + json).

Definition to_jsonable_python (o : pyobj) : exn + json :=
  match o with
  | PyData v => inr v
  | PyObject _ jsonable => jsonable
  end.

(** [json.dumps(o)]: the encoder raises [TypeError] on an object it does not
    know. *)
Definition json_dumps_obj (o : pyobj) : exn + string :=
  match o with
  | PyData v => inr (json_dumps v)
  | PyObject t _ => inl (TypeError ("Object of type " +:+ t +:+ " is not JSON serializable"))
  end.

(** ** [repr] and [str] of decoded values *)

Definition LF : string := String "010"%char EmptyString.

Definition squote : string := "'".

Fixpoint contains_char (n : N) (s : string) : bool :=
  match s with
  | EmptyString => false
  | String c rest => (N_of_ascii c =? n)%N || contains_char n rest
  end.

(** ['\\x{0:02x}']. *)
Definition hex_escape (n : N) : string :=
  "\x" +:+ String (hex_digit (n / 16)) (String (hex_digit (n mod 16)) EmptyString).

(** One character of [repr(s)] inside the quote [quote]: the quote and the
    backslash are escaped, tab, newline and carriage return have their short
    forms, and the code points that are not printable (the control
    characters, the no-break space and the soft hyphen, below 256) are
    written [\xNN]. *)
Definition repr_char (quote : N) (c : ascii) : string :=
  let n := N_of_ascii c in
  if ((n =? quote) || (n =? 92))%N then String "\"%char (String c EmptyString)
  else if (n =? 9)%N then "\t"
  else if (n =? 10)%N then "\n"
  else if (n =? 13)%N then "\r"
  else if ((n <? 32) || (n =? 127))%N then hex_escape n
  else if (n <? 127)%N then String c EmptyString
  else if ((n <=? 160) || (n =? 173))%N then hex_escape n
  else String c EmptyString.

Fixpoint repr_chars (quote : N) (s : string) : string :=
  match s with
  | EmptyString => EmptyString
  | String c rest => repr_char quote c +:+ repr_chars quote rest
  end.

(** [repr(s)]: single quotes, unless the string has a single quote and no
    double quote. *)
Definition py_repr_str (s : string) : string :=
  if contains_char 39 s && negb (contains_char 34 s)
  then dquote +:+ repr_chars 34 s +:+ dquote
  else squote +:+ repr_chars 39 s +:+ squote.

(** [repr(v)]: a list and a dict show the [repr] of their parts. *)
Fixpoint py_repr (v : json) : string :=
  match v with
  | JNull => "None"
  | JBool true => "True"
  | JBool false => "False"
  | JInt z => pretty z
  | JStr s => py_repr_str s
  | JList items =>
      "[" +:+
      (fix go (l : list json) : string :=
         match l with
         | [] => ""
         | x :: rest =>
             match rest with
             | [] => py_repr x
             | _ :: _ => py_repr x +:+ ", " +:+ go rest
             end
         end) items
      +:+ "]"
  | JDict entries =>
      "{" +:+
      (fix go (l : list (string * json)) : string :=
         match l with
         | [] => ""
         | (k, x) :: rest =>
             match rest with
             | [] => py_repr_str k +:+ ": " +:+ py_repr x
             | _ :: _ => py_repr_str k +:+ ": " +:+ py_repr x +:+ ", " +:+ go rest
             end
         end) entries
      +:+ "}"
  end.

(** [str(v)], what an f-string shows: a string as it is, anything else by
    its [repr]. *)
Definition str_of_value (v : json) : string :=
  match v with
  | JStr s => s
  | other => py_repr other
  end.

(** ** The framework's share of [str(e)] *)

(** [str(e)] of an [HTTPException] is decided by the installed Starlette:
    releases without [HTTPException.__str__] give the empty text for an
    exception built from keyword arguments, later ones give
    ["{status_code}: {detail}"].  The handlers are stated for any of them. *)
Class Framework : Type := { HTTPException_str : Z → json → string }.

(** Starlette before [__str__] was added. *)
Definition starlette_plain : Framework :=
  {| HTTPException_str := λ _ _, "" |}.

(** Starlette with [__str__], the f-string ["{status_code}: {detail}"]. *)
Definition starlette_status_detail : Framework :=
  {| HTTPException_str := λ status_code detail,
       pretty status_code +:+ ": " +:+ str_of_value detail |}.

(** [str(e)]. *)
Definition exn_str `{Framework} (e : exn) : string :=
  match e with
  | HTTPException status_code detail => HTTPException_str status_code detail
  | ValidationError _ text => text
  | UnexpectedModelBehavior text => text
  | PyException _ text => text
  end.

(** ** Effects and the handler monad *)

Inductive log_level : Type := INFO | ERROR | EXCEPTION.

(** The text handed to the logger: an f-string over strings and [str(e)],
    or such a text followed by the rendering of [e.errors()]. *)
Inductive log_text : Type :=
| Text (s : string)
| TextThenErrors (s : string) (errors : json).

(** What a handler does besides returning: logger calls, [print], calls
    into the engine and calls of tool functions. *)
Inductive effect : Type :=
| Logged (level : log_level) (text : log_text)
| Printed (line : string)
| EngineRunSync (agent_id : string) (prompt : json)
| ToolCalled (tool_name : string) (tool_args : json).

(** A computation that performs effects and then returns or raises. *)
Definition M (A : Type) : Type := list effect * (exn + A).

Definition ret {A} (a : A) : M A := ([], inr a).
Definition raise {A} (e : exn) : M A := ([], inl e).
Definition tell (ef : effect) : M unit := ([ef], inr tt).
Definition lift {A} (r : exn + A) : M A := ([], r).

Definition bind {A B} (m : M A) (k : A → M B) : M B :=
  match m with
  | (t, inl e) => (t, inl e)
  | (t, inr a) => let '(t', r) := k a in (t ++ t', r)
  end.

(** [try: body except Exception as e: handler(e)]. *)
Definition try_except {A} (body : M A) (handler : exn → M A) : M A :=
  match body with
  | (t, inl e) => let '(t', r) := handler e in (t ++ t', r)
  | (t, inr a) => (t, inr a)
  end.

#[global] Instance M_ret : MRet M := @ret.
#[global] Instance M_bind : MBind M := λ A B k m, bind m k.

(** Plain results, for code that raises or returns without other effects. *)
#[global] Instance result_bind : MBind (sum exn) :=
  λ A B k r, match r with inl e => inl e | inr a => k a end.

Definition effects {A} (m : M A) : list effect := m.1.
Definition outcome {A} (m : M A) : exn + A := m.2.

(** ** Agents, tools and the engine *)

Module Tool.
(** A tool of an agent: [function] is what calling [tool.function] with
    the value found under ["args"] unpacked as keyword arguments does,
    including the [TypeError] Python raises when that value is not a mapping
    or does not fit the signature.  The call is taken to depend on its
    arguments only: a tool that keeps state between calls is outside the
    model, and so is an engine whose runs differ from call to call. *)
Record t : Type := { name : string; function : json → exn + pyobj }.
End Tool.

Module RunResult.
Record t : Type := { data : pyobj; usage : pyobj; messages : pyobj }.
End RunResult.

Module StreamedRunResult.
(** The object bound by [async with agent.run_stream(...) as result]:
    [stream_text] is the run of the async iterator [result.stream_text()],
    the texts it yields and then a clean end ([None]) or an exception;
    [data] is the attribute access [result.data] and [usage] the call
    [result.usage()], both made after the iterator has ended. *)
Record t : Type := {
  stream_text : list string * option exn;
  data : exn + pyobj;
  usage : exn + pyobj
}.
End StreamedRunResult.

Module RunStream.
(** The async context manager returned by [agent.run_stream(...)]:
    entering it opens the session with the engine and may raise; leaving it
    may raise as well. *)
Record t : Type := {
  aenter : exn + StreamedRunResult.t;
  aexit : option exn
}.
End RunStream.

Module Agent.
(** An agent as the handlers use it.  [tools] is the attribute access
    [agent.tools]: the list of tools, or the exception the access raises
    (an [AttributeError] when the object has no such attribute).  The two
    entry points into the engine each take the prompt, [message_history],
    [model_settings] and [usage_limits]. *)
Record t : Type := {
  tools : exn + list Tool.t;
  run_sync : json → json → json → json → exn + RunResult.t;
  run_stream : json → json → json → json → RunStream.t
}.
End Agent.

(** The module-level dictionary [agent_instances], as it is at import time
    (line 53), given the two agents imported from the [agents] package. *)
Definition agent_instances (example_agent support_agent : Agent.t) : gmap string Agent.t :=
  <["bank_support_agent" := support_agent]> (<["example_agent" := example_agent]> ∅).

Definition _resolve_model_name (model_name : string) : string :=
  "openai:" +:+ model_name.

(** ** Responses *)

Module Generator.
(** A generator run to exhaustion: what it yielded, in order, and the
    exception that ended it, if one did. *)
Record t (A : Type) : Type := { yielded : list A; raised : option exn }.
Arguments yielded {A} _.
Arguments raised {A} _.
End Generator.

Inductive Response : Type :=
| JSONResponse (content : json) (status_code : Z)
| PlainTextResponse (content : string) (status_code : Z)
| StreamingResponse (body : Generator.t string).

(** [JSONResponse(content=...)] renders its content with [json.dumps] when
    it is built, and so raises on an entry the encoder does not know. *)
Fixpoint render_content (content : list (string * pyobj)) : exn + list (string * json) :=
  match content with
  | [] => inr []
  | (k, o) :: rest =>
      match o with
      | PyData v =>
          match render_content rest with
          | inr entries => inr ((k, v) :: entries)
          | inl e => inl e
          end
      | PyObject t _ =>
          inl (TypeError ("Object of type " +:+ t +:+ " is not JSON serializable"))
      end
  end.

Definition new_JSONResponse (content : list (string * pyobj)) : exn + Response :=
  match render_content content with
  | inr entries => inr (JSONResponse (JDict entries) 200)
  | inl e => inl e
  end.

(** [generic_exception_handler] (lines 273-283): the response for an
    exception that leaves a handler and is not an [HTTPException]. *)
Definition generic_exception_handler `{Framework} (exc : exn) : Response :=
  JSONResponse
    (JDict [("status", JStr "error");
            ("error_type", JStr (exn_class_name exc));
            ("message", JStr (exn_str exc))])
    500.

(** The status code the caller receives for what a handler returned or
    raised: that of the response, that of the [HTTPException], and 500 from
    [generic_exception_handler] for any other exception. *)
Definition status_of (r : exn + Response) : Z :=
  match r with
  | inr (JSONResponse _ status_code) => status_code
  | inr (PlainTextResponse _ status_code) => status_code
  | inr (StreamingResponse _) => 200
  | inl (HTTPException status_code _) => status_code
  | inl _ => 500
  end.

(** ** The handlers *)

Section Handlers.
Context `{Framework}.

(** [request_data[key]] on a dict. *)
Definition subscript (entries : list (string * json)) (key : string) : exn + json :=
  match dict_lookup key entries with
  | Some v => inr v
  | None => inl (KeyError key)
  end.

(** [agent_id in agent_instances] for a decoded [agent_id]: lists and dicts
    cannot be hashed; the keys of the registry are strings, so no other
    non-string value is among them. *)
Definition registry_contains (registry : gmap string Agent.t) (agent_id : json) : exn + bool :=
  match agent_id with
  | JStr s => inr (bool_decide (is_Some (registry !! s)))
  | JList _ | JDict _ =>
      inl (TypeError ("unhashable type: '" +:+ type_name agent_id +:+ "'"))
  | JNull | JBool _ | JInt _ => inr false
  end.

Definition agent_not_found : exn := HTTPException 404 (JStr "Agent not found").

Definition already_exists : exn :=
  HTTPException 400 (JStr "Agent with this ID already exists").

(** [create_agent] (lines 114-172) on the decoded payload [data], a JSON
    object as the docstring expects.  Line 152 reads [data["model"]] and
    formats it with [_resolve_model_name], which cannot raise; its value is
    used at line 157 only.  The name [_resolve_tools] is not bound in the
    module, its definition (lines 70-83) being commented out, so line 154
    raises [NameError] whenever it is reached and lines 155-167, with the
    insertion into [agent_instances], never run.  Everything is raised
    inside the [try], the duplicate-id [HTTPException] included, and is
    therefore seen by the [except] clauses.  The result is the registry
    after the call and what the handler did. *)
Definition create_agent (registry : gmap string Agent.t) (data : list (string * json))
    : gmap string Agent.t * M Response :=
  (registry,
   try_except
     (agent_id ← lift (subscript data "agent_id");
      present ← lift (registry_contains registry agent_id);
      if (present : bool) then raise already_exists
      else
        model_name ← lift (subscript data "model");
        system_prompt ← lift (subscript data "system_prompt");
        raise (NameError "_resolve_tools"))
     (λ e,
        match e with
        | ValidationError errors _ => raise (HTTPException 400 errors)
        | _ => raise (HTTPException 500 (JStr (exn_str e)))
        end)).

(** The three [except] clauses shared by both definitions of
    [run_agent_sync]. *)
Definition run_sync_handlers (agent_id : string) (e : exn) : M Response :=
  match e with
  | ValidationError errors _ =>
      _ ← tell (Logged ERROR
                  (TextThenErrors ("Agent " +:+ agent_id +:+ " encountered a validation error: ")
                     errors));
      raise (HTTPException 400 errors)
  | UnexpectedModelBehavior _ =>
      _ ← tell (Logged ERROR
                  (Text ("Agent " +:+ agent_id +:+
                         " encountered an unexpected model behavior: " +:+ exn_str e)));
      raise (HTTPException 500 (JStr ("Unexpected model behavior: " +:+ exn_str e)))
  | _ =>
      _ ← tell (Logged EXCEPTION
                  (Text ("Agent " +:+ agent_id +:+
                         " encountered an unexpected error: " +:+ exn_str e)));
      raise (HTTPException 500 (JStr (exn_str e)))
  end.

(** The call [agent.run_sync(request_data["prompt"], ...)]: the subscript is
    evaluated first and raises before the engine is entered. *)
Definition call_run_sync (agent_id : string) (agent : Agent.t)
    (request_data : list (string * json)) : M RunResult.t :=
  prompt ← lift (subscript request_data "prompt");
  _ ← tell (EngineRunSync agent_id prompt);
  lift (Agent.run_sync agent prompt
          (dict_get "message_history" request_data)
          (dict_get "model_settings" request_data)
          (dict_get "usage_limits" request_data)).

(** [run_agent_sync], first definition (lines 174-217): the route that
    FastAPI registered first and therefore the one that serves
    [/agents/{agent_id}/run_sync]. *)
Definition run_agent_sync (registry : gmap string Agent.t) (agent_id : string)
    (request_data : list (string * json)) : M Response :=
  match registry !! agent_id with
  | None => raise agent_not_found
  | Some agent =>
      try_except
        (result ← call_run_sync agent_id agent request_data;
         _ ← tell (Logged INFO
                     (Text ("Agent " +:+ agent_id +:+ " completed run_sync successfully")));
         r ← lift (to_jsonable_python (RunResult.data result));
         u ← lift (to_jsonable_python (RunResult.usage result));
         lift (new_JSONResponse
                 [("result", PyData r); ("usage", PyData u);
                  ("messages", RunResult.messages result)]))
        (run_sync_handlers agent_id)
  end.

(** [run_agent_sync], second definition (lines 293-320): no log line on
    success and no transcript in the response. *)
Definition run_agent_sync' (registry : gmap string Agent.t) (agent_id : string)
    (request_data : list (string * json)) : M Response :=
  match registry !! agent_id with
  | None => raise agent_not_found
  | Some agent =>
      try_except
        (result ← call_run_sync agent_id agent request_data;
         r ← lift (to_jsonable_python (RunResult.data result));
         u ← lift (to_jsonable_python (RunResult.usage result));
         lift (new_JSONResponse [("result", PyData r); ("usage", PyData u)]))
        (run_sync_handlers agent_id)
  end.

(** [{tool.name: tool for tool in agent.tools}] once [agent.tools] has
    given the list [tools]: a later tool replaces an earlier one of the same
    name. *)
Definition agent_tools (tools : list Tool.t) : gmap string Tool.t :=
  foldl (λ table tool, <[Tool.name tool := tool]> table) ∅ tools.

(** [call_tool] (lines 221-256).  The table is built at line 229, before
    the [try]: an exception raised by [agent.tools] leaves the handler as it
    is. *)
Definition call_tool (registry : gmap string Agent.t) (agent_id tool_name : string)
    (request_data : list (string * json)) : M Response :=
  match registry !! agent_id with
  | None => raise agent_not_found
  | Some agent =>
      tools ← lift (Agent.tools agent);
      match agent_tools tools !! tool_name with
      | None =>
          raise (HTTPException 404
                   (JStr ("Tool '" +:+ tool_name +:+ "' not found for agent '" +:+
                          agent_id +:+ "'")))
      | Some tool =>
          let tool_args := dict_get_default "args" (JDict []) request_data in
          try_except
            (_ ← tell (ToolCalled tool_name tool_args);
             result ← lift (Tool.function tool tool_args);
             result_json ← lift (json_dumps_obj result);
             lift (new_JSONResponse [("result", PyData (JStr result_json))]))
            (λ e,
               _ ← tell (Logged EXCEPTION
                           (Text ("Error calling tool '" +:+ tool_name +:+ "' for agent '" +:+
                                  agent_id +:+ "': " +:+ exn_str e)));
               raise (HTTPException 500 (JStr ("Error calling tool: " +:+ exn_str e))))
      end
  end.

(** The body of a log request; [timestamp] holds the text that formatting
    the [datetime] gives. *)
Record LogEntry : Type := { timestamp : string; level : string; message : string }.

(** [log_message] (lines 266-270): the registry is not consulted. *)
Definition log_message (agent_id : string) (log_entry : LogEntry) : M Response :=
  _ ← tell (Printed ("[" +:+ timestamp log_entry +:+ "] " +:+ agent_id +:+ " - " +:+
                     level log_entry +:+ ": " +:+ message log_entry));
  lift (new_JSONResponse [("status", PyData (JStr "success"))]).

(** *** Streaming *)

Definition chunk_event (response_part : string) : json :=
  JDict [("status", JStr "chunk"); ("data", JStr response_part)].

Definition complete_event (result usage : json) : json :=
  JDict [("status", JStr "complete"); ("result", result); ("usage", usage)].

Definition error_event (e : exn) : json :=
  JDict [("status", JStr "error");
         ("error_type", JStr (exn_class_name e));
         ("message", JStr (exn_str e))].

(** The part of [run_and_stream] after the loop (lines 340-346):
    [result.data], [result.usage()], then the conversion of the dict. *)
Definition final_result (result : StreamedRunResult.t) : exn + json :=
  d ← StreamedRunResult.data result;
  u ← StreamedRunResult.usage result;
  r ← to_jsonable_python d;
  us ← to_jsonable_python u;
  inr (complete_event r us).

(** The [try] statement inside the [async with] (lines 331-354): one chunk
    per text of the iterator, then the completion event, or the error event
    as soon as the iterator or the construction of the completion event
    raises. *)
Definition stream_body (result : StreamedRunResult.t) : list json :=
  let '(parts, fault) := StreamedRunResult.stream_text result in
  (chunk_event <$> parts) ++
  match fault with
  | Some e => [error_event e]
  | None =>
      match final_result result with
      | inr ev => [ev]
      | inl e => [error_event e]
      end
  end.

(** The call [agent.run_stream(request_data["prompt"], ...)] once the
    prompt has been read. *)
Definition run_stream_session (agent : Agent.t) (request_data : list (string * json))
    (prompt : json) : RunStream.t :=
  Agent.run_stream agent prompt
    (dict_get "message_history" request_data)
    (dict_get "model_settings" request_data)
    (dict_get "usage_limits" request_data).

(** [run_and_stream] (lines 322-354) as the events it yields before
    serialisation.  The subscript [request_data["prompt"]] and the entry
    into the context manager are outside the [try]: an exception there ends
    the generator before anything is yielded.  Leaving the context manager
    comes after the last event. *)
Definition run_and_stream_events (agent : Agent.t) (request_data : list (string * json))
    : Generator.t json :=
  match subscript request_data "prompt" with
  | inl e => {| Generator.yielded := []; Generator.raised := Some e |}
  | inr prompt =>
      let session := run_stream_session agent request_data prompt in
      match RunStream.aenter session with
      | inl e => {| Generator.yielded := []; Generator.raised := Some e |}
      | inr result =>
          {| Generator.yielded := stream_body result;
             Generator.raised := RunStream.aexit session |}
      end
  end.

(** [run_and_stream]: each event leaves as its [json.dumps] text. *)
Definition run_and_stream (agent : Agent.t) (request_data : list (string * json))
    : Generator.t string :=
  let run := run_and_stream_events agent request_data in
  {| Generator.yielded := json_dumps <$> Generator.yielded run;
     Generator.raised := Generator.raised run |}.

(** [run_agent_stream] (lines 356-363). *)
Definition run_agent_stream (registry : gmap string Agent.t) (agent_id : string)
    (request_data : list (string * json)) : M Response :=
  match registry !! agent_id with
  | None => ret (PlainTextResponse "Agent not found" 404)
  | Some agent => ret (StreamingResponse (run_and_stream agent request_data))
  end.

(** [crash_agent] (lines 383-391): [inr code] is [os._exit(code)]. *)
Definition crash_agent (registry : gmap string Agent.t) (agent_id : string)
    : M Response + Z :=
  match registry !! agent_id with
  | None => inl (raise agent_not_found)
  | Some _ => inr 1
  end.

End Handlers.

(** ** The serving process *)

(** The handlers are coroutines on one event loop, and control changes
    hands only at an [await].  [create_agent] awaits the request body before
    it looks at the registry and nothing afterwards, the other handlers do
    not await at all, and the generator of a streaming response never
    touches the registry.  Every execution of concurrent requests is
    therefore a sequence of whole handler bodies, in the order in which the
    loop resumes them: a list of requests stands for one such schedule. *)
Inductive request : Type :=
| CreateAgent (data : list (string * json))
| RunAgentSync (agent_id : string) (request_data : list (string * json))
| CallTool (agent_id tool_name : string) (request_data : list (string * json))
| LogMessage (agent_id : string) (log_entry : LogEntry)
| RunAgentStream (agent_id : string) (request_data : list (string * json))
| CrashAgent (agent_id : string).

Section Process.
Context `{Framework}.

(** One request against the registry: the registry afterwards and what the
    handler did, or [None] when the handler ended the process. *)
Definition handle (registry : gmap string Agent.t) (req : request)
    : option (gmap string Agent.t * M Response) :=
  match req with
  | CreateAgent data => Some (create_agent registry data)
  | RunAgentSync agent_id request_data =>
      Some (registry, run_agent_sync registry agent_id request_data)
  | CallTool agent_id tool_name request_data =>
      Some (registry, call_tool registry agent_id tool_name request_data)
  | LogMessage agent_id log_entry => Some (registry, log_message agent_id log_entry)
  | RunAgentStream agent_id request_data =>
      Some (registry, run_agent_stream registry agent_id request_data)
  | CrashAgent agent_id =>
      match crash_agent registry agent_id with
      | inl m => Some (registry, m)
      | inr _ => None
      end
  end.

(** A schedule served from a registry: what each request that was served
    got, and the registry at the end, [None] once the process has exited. *)
Fixpoint serve (registry : gmap string Agent.t) (schedule : list request)
    : list (M Response) * option (gmap string Agent.t) :=
  match schedule with
  | [] => ([], Some registry)
  | req :: rest =>
      match handle registry req with
      | None => ([], None)
      | Some (registry', m) =>
          let '(answers, final) := serve registry' rest in
          (m :: answers, final)
      end
  end.

End Process.

(** ** Reading outcomes and event sequences *)

(** The outward shapes of the failures the handlers raise themselves. *)
Definition is_NotFound (r : exn + Response) : bool := Z.eqb (status_of r) 404.

Definition is_AlreadyExists (r : exn + Response) : bool :=
  match r with
  | inl (HTTPException 400 (JStr s)) => String.eqb s "Agent with this ID already exists"
  | _ => false
  end.

(** A validation failure is reported with status 400. *)
Definition is_Validation (r : exn + Response) : bool := Z.eqb (status_of r) 400.

Definition is_success (r : exn + Response) : bool :=
  match r with
  | inr _ => Z.eqb (status_of r) 200
  | inl _ => false
  end.

(** The [status] discriminator of an event. *)
Definition event_status (ev : json) : option string :=
  match ev with
  | JDict entries =>
      match dict_lookup "status" entries with
      | Some (JStr s) => Some s
      | _ => None
      end
  | _ => None
  end.

Definition is_terminal (ev : json) : bool :=
  match event_status ev with
  | Some s => String.eqb s "complete" || String.eqb s "error"
  | None => false
  end.

Definition is_error (ev : json) : bool :=
  match event_status ev with
  | Some s => String.eqb s "error"
  | None => false
  end.

(** Exactly one terminal event, and it is the last one. *)
Fixpoint well_framed (events : list json) : bool :=
  match events with
  | [] => false
  | [ev] => is_terminal ev
  | ev :: rest => negb (is_terminal ev) && well_framed rest
  end.

(** The payloads of the [chunk] events, in order. *)
Fixpoint chunk_payloads (events : list json) : list string :=
  match events with
  | [] => []
  | JDict entries :: rest =>
      match dict_lookup "status" entries, dict_lookup "data" entries with
      | Some (JStr "chunk"), Some (JStr part) => part :: chunk_payloads rest
      | _, _ => chunk_payloads rest
      end
  | _ :: rest => chunk_payloads rest
  end.

(** The final output carried by a [complete] event. *)
Definition complete_result (ev : json) : option json :=
  match ev with
  | JDict entries =>
      match dict_lookup "status" entries with
      | Some (JStr "complete") => dict_lookup "result" entries
      | _ => None
      end
  | _ => None
  end.

(** The message carried by an [error] event. *)
Definition error_message (ev : json) : option json :=
  match ev with
  | JDict entries =>
      match dict_lookup "status" entries with
      | Some (JStr "error") => dict_lookup "message" entries
      | _ => None
      end
  | _ => None
  end.

(** The number of requests of a schedule that were answered with success. *)
Definition successes (answers : list (M Response)) : nat :=
  List.length (List.filter (λ m, is_success (outcome m)) answers).

(** The exception that the [try] statement of [run_and_stream] catches, if
    there is one: raised by the iterator, or else while the completion event
    is built. *)
Definition stream_failure (result : StreamedRunResult.t) : option exn :=
  match (StreamedRunResult.stream_text result).2 with
  | Some e => Some e
  | None =>
      match final_result result with
      | inl e => Some e
      | inr _ => None
      end
  end.

(** The detail of the [HTTPException] a handler raised. *)
Definition failure_detail (r : exn + Response) : option json :=
  match r with
  | inl (HTTPException _ detail) => Some detail
  | _ => None
  end.

(** ** Concrete agents and requests *)

Module Demo.

(** The binding of a call of [f] with [tool_args] unpacked as keyword
    arguments, for a function [def f(p1, p2, **_)]: the value must be a
    mapping, and both parameters must be among its keys. *)
Definition two_keyword_arguments (f p1 p2 : string) (tool_args : json)
    : exn + json * json :=
  match tool_args with
  | JDict entries =>
      match dict_lookup p1 entries, dict_lookup p2 entries with
      | Some x, Some y => inr (x, y)
      | Some _, None =>
          inl (TypeError (f +:+ "() missing 1 required positional argument: '" +:+
                          p2 +:+ "'"))
      | None, Some _ =>
          inl (TypeError (f +:+ "() missing 1 required positional argument: '" +:+
                          p1 +:+ "'"))
      | None, None =>
          inl (TypeError (f +:+ "() missing 2 required positional arguments: '" +:+
                          p1 +:+ "' and '" +:+ p2 +:+ "'"))
      end
  | _ =>
      inl (TypeError (f +:+ "() argument after ** must be a mapping, not " +:+
                      type_name tool_args))
  end.

(** A decoded value as an integer operand: a [bool] is an [int]. *)
Definition int_operand (v : json) : option Z :=
  match v with
  | JInt z => Some z
  | JBool b => Some (if b then 1 else 0)
  | _ => None
  end.

(** [x + y] on decoded values. *)
Definition py_add (x y : json) : exn + pyobj :=
  match int_operand x, int_operand y with
  | Some a, Some b => inr (PyData (JInt (a + b)))
  | _, _ =>
      match x, y with
      | JStr s, JStr t => inr (PyData (JStr (s +:+ t)))
      | JStr _, _ =>
          inl (TypeError ("can only concatenate str (not " +:+ dquote +:+ type_name y +:+
                          dquote +:+ ") to str"))
      | JList l, JList m => inr (PyData (JList (l ++ m)))
      | JList _, _ =>
          inl (TypeError ("can only concatenate list (not " +:+ dquote +:+ type_name y +:+
                          dquote +:+ ") to list"))
      | _, _ =>
          inl (TypeError ("unsupported operand type(s) for +: '" +:+ type_name x +:+
                          "' and '" +:+ type_name y +:+ "'"))
      end
  end.

(** The tool [def add(a: int, b: int, **_): return a + b]. *)
Definition add_function (tool_args : json) : exn + pyobj :=
  '(a, b) ← two_keyword_arguments "add" "a" "b" tool_args;
  py_add a b.

Definition add : Tool.t := {| Tool.name := "add"; Tool.function := add_function |}.

Definition usage : pyobj :=
  PyObject "Usage" (inr (JDict [("requests", JInt 1)])).

(** An engine script: the texts streamed, how the iterator ends, and the
    final output. *)
Definition scripted (parts : list string) (fault : option exn) (final : exn + pyobj)
    : Agent.t :=
  {| Agent.tools := inr [add];
     Agent.run_sync := λ _ _ _ _,
       match final with
       | inr d => inr {| RunResult.data := d; RunResult.usage := usage;
                         RunResult.messages := PyData (JList []) |}
       | inl e => inl e
       end;
     Agent.run_stream := λ _ _ _ _,
       {| RunStream.aenter :=
            inr {| StreamedRunResult.stream_text := (parts, fault);
                   StreamedRunResult.data := final;
                   StreamedRunResult.usage := inr usage |};
          RunStream.aexit := None |} |}.

(** An engine that streams text deltas. *)
Definition delta_agent : Agent.t :=
  scripted ["Hel"; "lo"] None (inr (PyData (JStr "Hello"))).

(** An engine whose iterator yields the whole text so far at each step. *)
Definition cumulative_agent : Agent.t :=
  scripted ["Hel"; "Hello"] None (inr (PyData (JStr "Hello"))).

(** An engine that fails in the middle of the stream, and fails the same way
    when run synchronously. *)
Definition failing_agent : Agent.t :=
  scripted ["Hel"] (Some (UnexpectedModelBehavior "boom"))
    (inl (UnexpectedModelBehavior "boom")).

Definition validation_errors : json :=
  JList [JDict [("type", JStr "string_type"); ("loc", JList [JStr "prompt"]);
                ("msg", JStr "Input should be a valid string")]].

(** An engine that rejects the run with a validation error. *)
Definition strict_agent : Agent.t :=
  scripted [] None (inl (ValidationError validation_errors "1 validation error")).

Definition registry : gmap string Agent.t := agent_instances delta_agent failing_agent.

Definition hi : list (string * json) := [("prompt", JStr "hi")].

Definition new_agent_payload : list (string * json) :=
  [("agent_id", JStr "my_agent"); ("model", JStr "gpt-4o");
   ("system_prompt", JStr "You are a helpful assistant.")].

Definition duplicate_payload : list (string * json) :=
  [("agent_id", JStr "example_agent"); ("model", JStr "gpt-4o");
   ("system_prompt", JStr "You are a helpful assistant.")].

Definition entry : LogEntry :=
  {| timestamp := "2024-01-01 00:00:00"; level := "info"; message := "hello" |}.

End Demo.

(** ** Functions outside the request path *)

(** *** [_resolve_result_type] *)

(** What [str_value["type"]] says depends on the interpreter: the text of
    the [TypeError] for a string indexed by a string changed in Python
    3.11. *)
Class Interpreter : Type := { str_index_text : string }.

Definition python_3_11 : Interpreter :=
  {| str_index_text := "string indices must be integers, not 'str'" |}.

Definition python_3_10 : Interpreter :=
  {| str_index_text := "string indices must be integers" |}.

(** The Python types of the table at lines 93-101. *)
Inductive field_type : Type :=
| py_str | py_int | py_bool | py_float | py_list | py_dict | py_NoneType.

Definition field_type_table : list (string * field_type) :=
  [("string", py_str); ("integer", py_int); ("boolean", py_bool);
   ("number", py_float); ("array", py_list); ("object", py_dict);
   ("null", py_NoneType)].

Fixpoint table_lookup (key : string) (table : list (string * field_type))
    : option field_type :=
  match table with
  | [] => None
  | (k, t) :: rest => if String.eqb k key then Some t else table_lookup key rest
  end.

Section ResultType.
Context `{Interpreter}.

(** [field_info["type"]] for a decoded [field_info]. *)
Definition field_info_type (field_info : json) : exn + json :=
  match field_info with
  | JDict entries => subscript entries "type"
  | JStr _ => inl (TypeError str_index_text)
  | JList _ => inl (TypeError "list indices must be integers or slices, not str")
  | JNull | JBool _ | JInt _ =>
      inl (TypeError ("'" +:+ type_name field_info +:+ "' object is not subscriptable"))
  end.

(** The subscript of the table by a decoded value: lists and dicts cannot
    be hashed, and a key that is not in the table raises [KeyError], whose
    text is the [repr] of the key. *)
Definition field_type_of (key : json) : exn + field_type :=
  match key with
  | JStr s =>
      match table_lookup s field_type_table with
      | Some t => inr t
      | None => inl (PyException "KeyError" (py_repr_str s))
      end
  | JInt z => inl (PyException "KeyError" (pretty z))
  | JBool b => inl (PyException "KeyError" (if b then "True" else "False"))
  | JNull => inl (PyException "KeyError" "None")
  | JList _ | JDict _ =>
      inl (TypeError ("unhashable type: '" +:+ type_name key +:+ "'"))
  end.

(** The loop of [_resolve_result_type] (lines 90-106): the dict [fields],
    one required field per entry of the configuration, in its order.  The
    function returns pydantic's [create_model("ResultModel", **fields)],
    which is not part of the module. *)
Fixpoint result_type_fields (result_type_config : list (string * json))
    : exn + list (string * field_type) :=
  match result_type_config with
  | [] => inr []
  | (field_name, field_info) :: rest =>
      key ← field_info_type field_info;
      t ← field_type_of key;
      fields ← result_type_fields rest;
      inr ((field_name, t) :: fields)
  end.

End ResultType.

(** *** [event_stream] *)

Section EventStream.
Context `{Framework}.

(** A server-sent-event frame. *)
Definition sse_frame (payload : json) : string :=
  "data: " +:+ json_dumps payload +:+ LF +:+ LF.

Definition sse_error_frame (e : exn) : string :=
  sse_frame (JDict [("error", JStr (exn_str e))]).

(** [event_stream] (lines 286-291) on the run of the async iterator
    [result], its items and then a clean end or an exception: one frame per
    item; the conversion of an item is inside the [try] as well, so the
    first exception, from the conversion or from the iterator, is answered
    with one error frame, after which the generator ends.  No exception
    leaves it. *)
Fixpoint event_stream (items : list pyobj) (fault : option exn) : list string :=
  match items with
  | [] =>
      match fault with
      | Some e => [sse_error_frame e]
      | None => []
      end
  | event :: rest =>
      match to_jsonable_python event with
      | inr v => sse_frame v :: event_stream rest fault
      | inl e => [sse_error_frame e]
      end
  end.

End EventStream.

(** The items of an iterator that are converted before anything fails. *)
Fixpoint converted_prefix (items : list pyobj) : list json :=
  match items with
  | [] => []
  | event :: rest =>
      match to_jsonable_python event with
      | inr v => v :: converted_prefix rest
      | inl _ => []
      end
  end.

(** The first exception of a run of [event_stream]: from the conversion of
    an item, or from the iterator once its items are through. *)
Fixpoint first_failure (items : list pyobj) (fault : option exn) : option exn :=
  match items with
  | [] => fault
  | event :: rest =>
      match to_jsonable_python event with
      | inr _ => first_failure rest fault
      | inl e => Some e
      end
  end.


(** What leaves a handler as it should: a response, or an [HTTPException]. *)
Definition is_normalized (r : exn + Response) : Prop :=
  match r with
  | inr _ => True
  | inl (HTTPException _ _) => True
  | inl _ => False
  end.

(** A text of printable ASCII characters only, from the space to the
    tilde: no line break, no control character, nothing beyond ASCII. *)
Fixpoint printable_ascii (s : string) : bool :=
  match s with
  | EmptyString => true
  | String c rest =>
      (32 <=? N_of_ascii c)%N && (N_of_ascii c <=? 126)%N && printable_ascii rest
  end.

(** More concrete values. *)
Module Samples.

Definition divide_function (tool_args : json) : exn + pyobj :=
  match tool_args with
  | JDict entries =>
      match dict_lookup "a" entries, dict_lookup "b" entries with
      | Some (JInt a), Some (JInt b) =>
          if Z.eqb b 0
          then inl (PyException "ZeroDivisionError" "integer division or modulo by zero")
          else inr (PyData (JInt (a / b)))
      | _, _ => inl (TypeError "divide() got unexpected or missing arguments")
      end
  | _ => inl (TypeError "argument after ** must be a mapping")
  end.

Definition divide : Tool.t :=
  {| Tool.name := "divide"; Tool.function := divide_function |}.

(** A tool that returns an object [json.dumps] does not know. *)
Definition now : Tool.t :=
  {| Tool.name := "now";
     Tool.function := λ _, inr (PyObject "datetime" (inr (JStr "2024-01-01T00:00:00"))) |}.

(** A second tool under the name of the first. *)
Definition divide' : Tool.t :=
  {| Tool.name := "divide"; Tool.function := λ _, inr (PyData (JInt 0)) |}.

Definition transcript : pyobj := PyObject "ModelRequest" (inr (JList [])).

(** An agent with tools whose run returns a transcript of opaque objects. *)
Definition tooled_agent : Agent.t :=
  {| Agent.tools := inr [divide; now; divide'];
     Agent.run_sync := λ _ _ _ _,
       inr {| RunResult.data := PyData (JStr "Hello"); RunResult.usage := Demo.usage;
              RunResult.messages := transcript |};
     Agent.run_stream := λ _ _ _ _,
       {| RunStream.aenter := inl (PyException "ConnectionError" "engine unreachable");
          RunStream.aexit := None |} |}.

(** The [AttributeError] of an object without the attribute asked for. *)
Definition no_attribute (class_name attribute : string) : exn :=
  PyException "AttributeError"
    ("'" +:+ class_name +:+ "' object has no attribute '" +:+ attribute +:+ "'").

(** An agent on which reading [agent.tools] raises, and whose streaming
    result has no [data] to read once the texts are through. *)
Definition attributeless_agent : Agent.t :=
  {| Agent.tools := inl (no_attribute "Agent" "tools");
     Agent.run_sync := λ _ _ _ _,
       inr {| RunResult.data := PyData (JStr "Hello"); RunResult.usage := Demo.usage;
              RunResult.messages := PyData (JList []) |};
     Agent.run_stream := λ _ _ _ _,
       {| RunStream.aenter :=
            inr {| StreamedRunResult.stream_text := (["Hel"; "lo"], None);
                   StreamedRunResult.data :=
                     inl (no_attribute "StreamedRunResult" "data");
                   StreamedRunResult.usage := inr Demo.usage |};
          RunStream.aexit := None |} |}.

(** An agent whose run fails with an exception of no special class. *)
Definition broken_agent : Agent.t :=
  Demo.scripted ["Hel"] None (inl (PyException "RuntimeError" "lost")).

Definition registry : gmap string Agent.t :=
  agent_instances tooled_agent broken_agent.

Definition flat_schema : list (string * json) :=
  [("field1", JDict [("type", JStr "string")]);
   ("field2", JDict [("type", JStr "integer")])].

(** The shape shown in the docstring of [create_agent]. *)
Definition docstring_schema : list (string * json) :=
  [("type", JStr "object");
   ("properties", JDict [("field1", JDict [("type", JStr "string")]);
                          ("field2", JDict [("type", JStr "integer")])])].

End Samples.

(** * Properties *)

(** ** Registration *)

Section RegistrationFacts.
Context `{Framework}.

Lemma registry_contains_fresh (registry : gmap string Agent.t) (id : string) :
  registry !! id = None → registry_contains registry (JStr id) = inr false.
Proof.
  intros Hfresh. unfold registry_contains.
  rewrite bool_decide_eq_false_2; [done|].
  rewrite Hfresh. by intros [? ?].
Qed.

Lemma registry_contains_present (registry : gmap string Agent.t) (id : string) :
  is_Some (registry !! id) → registry_contains registry (JStr id) = inr true.
Proof.
  intros Hpresent. unfold registry_contains.
  by rewrite bool_decide_eq_true_2.
Qed.

Lemma subscript_present (entries : list (string * json)) (key : string) (v : json) :
  dict_lookup key entries = Some v → subscript entries key = inr v.
Proof. unfold subscript. by intros ->. Qed.

Lemma subscript_absent (entries : list (string * json)) (key : string) :
  dict_lookup key entries = None → subscript entries key = inl (KeyError key).
Proof. unfold subscript. by intros ->. Qed.

(** The registry is never written. *)
Lemma create_agent_registry (registry : gmap string Agent.t) (data : list (string * json)) :
  (create_agent registry data).1 = registry.
Proof. reflexivity. Qed.

(** Whatever the payload, [create_agent] ends in its last [except] clause:
    no effect, and an [HTTPException] with status 500. *)
Lemma create_agent_raises (registry : gmap string Agent.t) (data : list (string * json)) :
  ∃ text, (create_agent registry data).2 = ([], inl (HTTPException 500 (JStr text))).
Proof.
  unfold create_agent, subscript. cbn [snd].
  destruct (dict_lookup "agent_id" data) as [agent_id|]; [|by eexists].
  destruct agent_id as [| b | z | s | items | entries]; cbn;
    try (destruct (dict_lookup "model" data); cbn; [|by eexists];
         destruct (dict_lookup "system_prompt" data); cbn; by eexists);
    try by eexists.
  destruct (bool_decide (is_Some (registry !! s))); cbn; [by eexists|].
  destruct (dict_lookup "model" data); cbn; [|by eexists].
  destruct (dict_lookup "system_prompt" data); cbn; by eexists.
Qed.

Lemma create_agent_not_success (registry : gmap string Agent.t) (data : list (string * json)) :
  is_success (outcome (create_agent registry data).2) = false.
Proof.
  destruct (create_agent_raises registry data) as [text ->]. reflexivity.
Qed.

Lemma create_agent_status (registry : gmap string Agent.t) (data : list (string * json)) :
  status_of (outcome (create_agent registry data).2) = 500.
Proof.
  destruct (create_agent_raises registry data) as [text ->]. reflexivity.
Qed.

(** No handler writes the registry. *)
Lemma handle_registry (registry registry' : gmap string Agent.t) (req : request)
    (m : M Response) :
  handle registry req = Some (registry', m) → registry' = registry.
Proof.
  destruct req as [data | a rd | a tool rd | a entry | a rd | a]; cbn;
    try congruence.
  - unfold create_agent. congruence.
  - unfold crash_agent. destruct (registry !! a); congruence.
Qed.

Lemma serve_registry (schedule : list request) (registry registry' : gmap string Agent.t) :
  (serve registry schedule).2 = Some registry' → registry' = registry.
Proof.
  revert registry. induction schedule as [|req rest IH]; intros registry; cbn.
  - congruence.
  - destruct (handle registry req) as [[registry1 m]|] eqn:Hreq; [|done].
    apply handle_registry in Hreq as ->.
    destruct (serve registry rest) as [answers final] eqn:Hrest. cbn.
    intros ->. apply IH. by rewrite Hrest.
Qed.

Lemma serve_create_agent (registry : gmap string Agent.t) (data : list (string * json))
    (rest : list request) :
  serve registry (CreateAgent data :: rest)
  = ((create_agent registry data).2 :: (serve registry rest).1,
     (serve registry rest).2).
Proof.
  cbn [serve handle]. unfold create_agent at 1.
  by destruct (serve registry rest).
Qed.

End RegistrationFacts.

(** C1.  What the source does with a registration whose id is fresh and
    whose payload carries the three fields that are read: line 154 raises
    [NameError] for [_resolve_tools], the last [except] clause turns it into
    an [HTTPException] with status 500, nothing is inserted, and a lookup of
    the id still fails afterwards. *)
Theorem create_agent_fresh_id `{Framework} (registry : gmap string Agent.t)
    (data : list (string * json)) (id : string) (model_name system_prompt : json) :
  registry !! id = None →
  dict_lookup "agent_id" data = Some (JStr id) →
  dict_lookup "model" data = Some model_name →
  dict_lookup "system_prompt" data = Some system_prompt →
  create_agent registry data
  = (registry,
     ([], inl (HTTPException 500 (JStr "name '_resolve_tools' is not defined"))))
  ∧ (create_agent registry data).1 !! id = None.
Proof.
  intros Hfresh Hid Hmodel Hprompt. split; [|done].
  unfold create_agent.
  rewrite (subscript_present _ _ _ Hid), (subscript_present _ _ _ Hmodel),
    (subscript_present _ _ _ Hprompt).
  cbn -[registry_contains]. rewrite (registry_contains_fresh _ _ Hfresh). reflexivity.
Qed.

Lemma create_agent_fresh_id_witness :
  Demo.registry !! "my_agent" = None
  ∧ (@create_agent starlette_status_detail Demo.registry Demo.new_agent_payload).2
    = ([], inl (HTTPException 500 (JStr "name '_resolve_tools' is not defined"))).
Proof.
  split; [reflexivity|].
  exact (f_equal snd
           (proj1 (@create_agent_fresh_id starlette_status_detail Demo.registry
                     Demo.new_agent_payload "my_agent" (JStr "gpt-4o")
                     (JStr "You are a helpful assistant.")
                     eq_refl eq_refl eq_refl eq_refl))).
Defined.

(** C3.  What the source does with a registration whose id is already
    present: the [HTTPException] with status 400 is raised inside the [try],
    caught by the last [except] clause and replaced by one with status 500
    whose detail is [str] of the first; the outcome is not the
    already-exists failure, and the registry is left as it was. *)
Theorem create_agent_duplicate_id `{Framework} (registry : gmap string Agent.t)
    (data : list (string * json)) (id : string) :
  is_Some (registry !! id) →
  dict_lookup "agent_id" data = Some (JStr id) →
  create_agent registry data
  = (registry, ([], inl (HTTPException 500 (JStr (exn_str already_exists)))))
  ∧ status_of (outcome (create_agent registry data).2) = 500
  ∧ is_AlreadyExists (outcome (create_agent registry data).2) = false.
Proof.
  intros Hpresent Hid.
  assert (create_agent registry data
          = (registry, ([], inl (HTTPException 500 (JStr (exn_str already_exists))))))
    as Heq.
  { unfold create_agent. rewrite (subscript_present _ _ _ Hid).
    cbn -[registry_contains].
    rewrite (registry_contains_present _ _ Hpresent). reflexivity. }
  split; [exact Heq|]. rewrite Heq. split; reflexivity.
Qed.

(** The status does not depend on how the framework renders the first
    exception; only the detail does. *)
Example create_agent_duplicate_id_plain :
  (@create_agent starlette_plain Demo.registry Demo.duplicate_payload).2
  = ([], inl (HTTPException 500 (JStr ""))).
Proof. reflexivity. Qed.

Lemma create_agent_duplicate_id_witness :
  is_Some (Demo.registry !! "example_agent")
  ∧ (@create_agent starlette_status_detail Demo.registry Demo.duplicate_payload).2
    = ([], inl (HTTPException 500 (JStr "400: Agent with this ID already exists"))).
Proof.
  split; [exact (ex_intro _ Demo.delta_agent eq_refl)|].
  exact (f_equal snd
           (proj1 (@create_agent_duplicate_id starlette_status_detail Demo.registry
                     Demo.duplicate_payload "example_agent"
                     (ex_intro _ Demo.delta_agent eq_refl) eq_refl))).
Defined.

(** C9.  Any number of registration attempts, resumed by the event loop in
    any order: each is answered, all with status 500 and none with success,
    and the registry at the end is the registry at the start.  In particular
    a single attempt for a fresh id does not succeed. *)
Theorem concurrent_registrations_all_fail `{Framework} (registry : gmap string Agent.t)
    (payloads : list (list (string * json))) :
  (serve registry (CreateAgent <$> payloads)).2 = Some registry
  ∧ List.length (serve registry (CreateAgent <$> payloads)).1 = List.length payloads
  ∧ Forall (λ m, status_of (outcome m) = 500) (serve registry (CreateAgent <$> payloads)).1
  ∧ successes (serve registry (CreateAgent <$> payloads)).1 = 0%nat.
Proof.
  induction payloads as [|data rest IH]; [by repeat split|].
  rewrite fmap_cons, serve_create_agent. cbn [fst snd].
  destruct IH as (Hfinal & Hlen & Hstatus & Hnone).
  split; [done|]. split; [cbn; by rewrite Hlen|]. split.
  - constructor; [apply create_agent_status | exact Hstatus].
  - unfold successes in *. cbn [List.filter].
    by rewrite create_agent_not_success.
Qed.

(** C10.  The registry starts with the two imported agents under
    ["example_agent"] and ["bank_support_agent"], and after any schedule of
    requests that leaves the process running both ids still resolve, to the
    same agents. *)
Theorem preregistered_agents_stay `{Framework} (example_agent support_agent : Agent.t)
    (schedule : list request) (registry' : gmap string Agent.t) :
  (serve (agent_instances example_agent support_agent) schedule).2 = Some registry' →
  registry' !! "example_agent" = Some example_agent
  ∧ registry' !! "bank_support_agent" = Some support_agent.
Proof.
  intros Hserve. apply serve_registry in Hserve as ->.
  unfold agent_instances. split.
  - rewrite lookup_insert_ne by done. apply lookup_insert_eq.
  - apply lookup_insert_eq.
Qed.

Lemma preregistered_agents_stay_witness :
  (@serve starlette_status_detail
     (agent_instances Demo.delta_agent Demo.failing_agent)
     [CreateAgent Demo.new_agent_payload;
      CallTool "example_agent" "multiply" [];
      LogMessage "ghost" Demo.entry;
      CrashAgent "ghost"]).2
  = Some Demo.registry
  ∧ Demo.registry !! "example_agent" = Some Demo.delta_agent
  ∧ Demo.registry !! "bank_support_agent" = Some Demo.failing_agent.
Proof.
  split; [reflexivity|].
  exact (@preregistered_agents_stay starlette_status_detail Demo.delta_agent
           Demo.failing_agent
           [CreateAgent Demo.new_agent_payload;
            CallTool "example_agent" "multiply" [];
            LogMessage "ghost" Demo.entry;
            CrashAgent "ghost"]
           Demo.registry eq_refl).
Defined.

(** ** Unknown agents, malformed run requests and tool calls *)

(** C4.  On an id that is not in the registry, both definitions of
    [run_agent_sync] and [call_tool] raise the 404 [HTTPException] and
    [run_agent_stream] returns a 404 text response, all four without any
    effect; [log_message], which never looks at the registry, prints the
    line and answers with success. *)
Theorem unregistered_id_operations `{Framework} (registry : gmap string Agent.t)
    (agent_id tool_name : string) (request_data : list (string * json))
    (log_entry : LogEntry) :
  registry !! agent_id = None →
  run_agent_sync registry agent_id request_data = ([], inl agent_not_found)
  ∧ run_agent_sync' registry agent_id request_data = ([], inl agent_not_found)
  ∧ call_tool registry agent_id tool_name request_data = ([], inl agent_not_found)
  ∧ run_agent_stream registry agent_id request_data
    = ([], inr (PlainTextResponse "Agent not found" 404))
  ∧ log_message agent_id log_entry
    = ([Printed ("[" +:+ timestamp log_entry +:+ "] " +:+ agent_id +:+ " - " +:+
                 level log_entry +:+ ": " +:+ message log_entry)],
       inr (JSONResponse (JDict [("status", JStr "success")]) 200))
  ∧ is_NotFound (outcome (log_message agent_id log_entry)) = false.
Proof.
  intros Hunknown.
  unfold run_agent_sync, run_agent_sync', call_tool, run_agent_stream.
  rewrite Hunknown. repeat split; reflexivity.
Qed.

Lemma unregistered_id_operations_witness :
  Demo.registry !! "ghost" = None
  ∧ is_NotFound (outcome (@run_agent_sync starlette_status_detail Demo.registry
                            "ghost" Demo.hi)) = true
  ∧ @log_message "ghost" Demo.entry
    = ([Printed "[2024-01-01 00:00:00] ghost - info: hello"],
       inr (JSONResponse (JDict [("status", JStr "success")]) 200)).
Proof.
  pose proof (@unregistered_id_operations starlette_status_detail Demo.registry
                "ghost" "add" Demo.hi Demo.entry eq_refl)
    as (Hsync & _ & _ & _ & Hlog & _).
  split; [reflexivity|]. split.
  - rewrite Hsync. reflexivity.
  - exact Hlog.
Defined.

(** A run request without a prompt on a registered agent: the subscript
    raises [KeyError] before the engine is entered, the last [except] clause
    logs it and raises an [HTTPException] with status 500 whose detail is
    the text of the [KeyError].  Both definitions of the handler agree. *)
Lemma run_agent_sync_missing_prompt `{Framework} (registry : gmap string Agent.t)
    (agent_id : string) (agent : Agent.t) (request_data : list (string * json)) :
  registry !! agent_id = Some agent →
  dict_lookup "prompt" request_data = None →
  run_agent_sync registry agent_id request_data
  = ([Logged EXCEPTION
        (Text ("Agent " +:+ agent_id +:+ " encountered an unexpected error: 'prompt'"))],
     inl (HTTPException 500 (JStr "'prompt'")))
  ∧ run_agent_sync' registry agent_id request_data
    = run_agent_sync registry agent_id request_data.
Proof.
  intros Hagent Hprompt.
  unfold run_agent_sync, run_agent_sync', call_run_sync.
  rewrite Hagent, (subscript_absent _ _ Hprompt). split; reflexivity.
Qed.

(** Status 400 leaves [run_agent_sync] only through its first [except]
    clause, that is, for a [ValidationError]. *)
Lemma run_sync_handlers_validation `{Framework} (agent_id : string) (e : exn) :
  is_Validation (outcome (run_sync_handlers agent_id e)) = true
  ↔ ∃ errors text, e = ValidationError errors text.
Proof.
  destruct e as [status detail | errors text | text | class_name text]; cbn.
  - split; [done|]. by intros (? & ? & ?).
  - split; [|done]. intros _. by exists errors, text.
  - split; [done|]. by intros (? & ? & ?).
  - split; [done|]. by intros (? & ? & ?).
Qed.

(** C7, as the source has it.  A run request with a prompt, on a registered
    agent, that the run rejects with a [ValidationError]: the first [except]
    clause logs it and raises an [HTTPException] with status 400 whose
    detail is the list of validation errors.  Both definitions of the
    handler agree. *)
Theorem run_agent_sync_validation_error `{Framework} (registry : gmap string Agent.t)
    (agent_id : string) (agent : Agent.t) (request_data : list (string * json))
    (prompt errors : json) (text : string) :
  registry !! agent_id = Some agent →
  dict_lookup "prompt" request_data = Some prompt →
  Agent.run_sync agent prompt
    (dict_get "message_history" request_data)
    (dict_get "model_settings" request_data)
    (dict_get "usage_limits" request_data)
  = inl (ValidationError errors text) →
  run_agent_sync registry agent_id request_data
  = ([EngineRunSync agent_id prompt;
      Logged ERROR
        (TextThenErrors ("Agent " +:+ agent_id +:+ " encountered a validation error: ")
           errors)],
     inl (HTTPException 400 errors))
  ∧ run_agent_sync' registry agent_id request_data
    = run_agent_sync registry agent_id request_data
  ∧ is_Validation (outcome (run_agent_sync registry agent_id request_data)) = true.
Proof.
  intros Hagent Hprompt Hrun.
  assert (run_agent_sync registry agent_id request_data
          = ([EngineRunSync agent_id prompt;
              Logged ERROR
                (TextThenErrors
                   ("Agent " +:+ agent_id +:+ " encountered a validation error: ") errors)],
             inl (HTTPException 400 errors))) as Hsync.
  { unfold run_agent_sync, call_run_sync.
    rewrite Hagent, (subscript_present _ _ _ Hprompt). cbn. rewrite Hrun. reflexivity. }
  split; [exact Hsync|]. split.
  - rewrite Hsync. unfold run_agent_sync', call_run_sync.
    rewrite Hagent, (subscript_present _ _ _ Hprompt). cbn. rewrite Hrun. reflexivity.
  - rewrite Hsync. reflexivity.
Qed.

Lemma run_agent_sync_validation_error_witness :
  <["strict" := Demo.strict_agent]> Demo.registry !! "strict" = Some Demo.strict_agent
  ∧ @run_agent_sync starlette_status_detail (<["strict" := Demo.strict_agent]> Demo.registry)
      "strict" Demo.hi
    = ([EngineRunSync "strict" (JStr "hi");
        Logged ERROR
          (TextThenErrors "Agent strict encountered a validation error: "
             Demo.validation_errors)],
       inl (HTTPException 400 Demo.validation_errors)).
Proof.
  split; [reflexivity|].
  exact (proj1 (@run_agent_sync_validation_error starlette_status_detail
                  (<["strict" := Demo.strict_agent]> Demo.registry) "strict"
                  Demo.strict_agent Demo.hi (JStr "hi") Demo.validation_errors
                  "1 validation error" eq_refl eq_refl eq_refl)).
Defined.

(** C7 as stated fails: an empty run request on a registered agent is not
    answered with the validation status, but with status 500 and the text
    of the [KeyError]. *)
Lemma run_agent_sync_missing_prompt_counterexample :
  is_Validation
    (outcome (@run_agent_sync starlette_status_detail Demo.registry "example_agent" []))
  = false
  ∧ outcome (@run_agent_sync starlette_status_detail Demo.registry "example_agent" [])
    = inl (HTTPException 500 (JStr "'prompt'")).
Proof. split; reflexivity. Qed.

(** On a registered agent whose tools can be read and a tool of its table,
    [call_tool] calls the tool function on the mapping found under ["args"]
    (the empty mapping when there is none) and, when the function returns
    plain data, answers with its JSON text under ["result"]. *)
Lemma call_tool_returns_serialized_result `{Framework} (registry : gmap string Agent.t)
    (agent_id tool_name : string) (agent : Agent.t) (tools : list Tool.t) (tool : Tool.t)
    (request_data : list (string * json)) (value : json) :
  registry !! agent_id = Some agent →
  Agent.tools agent = inr tools →
  agent_tools tools !! tool_name = Some tool →
  Tool.function tool (dict_get_default "args" (JDict []) request_data)
  = inr (PyData value) →
  call_tool registry agent_id tool_name request_data
  = ([ToolCalled tool_name (dict_get_default "args" (JDict []) request_data)],
     inr (JSONResponse (JDict [("result", JStr (json_dumps value))]) 200)).
Proof.
  intros Hagent Htools Htool Hcall.
  unfold call_tool. rewrite Hagent, Htools. cbn. rewrite Htool.
  cbn. rewrite Hcall. reflexivity.
Qed.

Example call_tool_add :
  @call_tool starlette_status_detail Demo.registry "example_agent" "add"
    [("args", JDict [("a", JInt 2); ("b", JInt 3)])]
  = ([ToolCalled "add" (JDict [("a", JInt 2); ("b", JInt 3)])],
     inr (JSONResponse (JDict [("result", JStr "5")]) 200)).
Proof. reflexivity. Qed.

(** C8.  What the source does on a registered agent whose [agent.tools]
    cannot be read: the access at line 229 is outside the [try], so its
    exception leaves [call_tool] as it is, whatever the tool name and the
    request; no tool function is called, nothing is logged, and the call
    does not succeed. *)
Theorem call_tool_tools_unreadable `{Framework} (registry : gmap string Agent.t)
    (agent_id tool_name : string) (agent : Agent.t)
    (request_data : list (string * json)) (e : exn) :
  registry !! agent_id = Some agent →
  Agent.tools agent = inl e →
  call_tool registry agent_id tool_name request_data = ([], inl e)
  ∧ is_success (outcome (call_tool registry agent_id tool_name request_data)) = false.
Proof.
  intros Hagent Htools. unfold call_tool. rewrite Hagent, Htools. split; reflexivity.
Qed.

Lemma call_tool_tools_unreadable_witness :
  <["library_agent" := Samples.attributeless_agent]> Demo.registry !! "library_agent"
  = Some Samples.attributeless_agent
  ∧ @call_tool starlette_status_detail
      (<["library_agent" := Samples.attributeless_agent]> Demo.registry)
      "library_agent" "add" [("args", JDict [("a", JInt 2); ("b", JInt 3)])]
    = ([], inl (PyException "AttributeError" "'Agent' object has no attribute 'tools'")).
Proof.
  split; [reflexivity|].
  exact (proj1 (@call_tool_tools_unreadable starlette_status_detail
                  (<["library_agent" := Samples.attributeless_agent]> Demo.registry)
                  "library_agent" "add" Samples.attributeless_agent
                  [("args", JDict [("a", JInt 2); ("b", JInt 3)])]
                  (Samples.no_attribute "Agent" "tools") eq_refl eq_refl)).
Defined.

(** ** Streaming *)

Section StreamingFacts.
Context `{Framework}.

Lemma is_terminal_chunk (part : string) : is_terminal (chunk_event part) = false.
Proof. reflexivity. Qed.

Lemma is_terminal_complete (result usage : json) :
  is_terminal (complete_event result usage) = true.
Proof. reflexivity. Qed.

Lemma is_terminal_error (e : exn) : is_terminal (error_event e) = true.
Proof. reflexivity. Qed.

Lemma well_framed_cons (ev ev' : json) (rest : list json) :
  well_framed (ev :: ev' :: rest) = negb (is_terminal ev) && well_framed (ev' :: rest).
Proof. reflexivity. Qed.

(** [well_framed] says what its name says: the events are some non-terminal
    events followed by one terminal event. *)
Lemma well_framed_spec (events : list json) :
  well_framed events = true
  ↔ ∃ init t,
      events = init ++ [t]
      ∧ is_terminal t = true
      ∧ Forall (λ ev, is_terminal ev = false) init.
Proof.
  induction events as [|ev rest IH].
  - split; [done|]. intros (init & t & Heq & _). by destruct init.
  - destruct rest as [|ev' rest'].
    + cbn. split.
      * intros Hterminal. by exists [], ev.
      * intros (init & t & Heq & Hterminal & _).
        destruct init as [|ev0 init]; [by injection Heq as ->|].
        injection Heq as _ Heq. by destruct init.
    + rewrite well_framed_cons, andb_true_iff, negb_true_iff, IH. split.
      * intros (Hev & init & t & Heq & Hterminal & Hinit).
        exists (ev :: init), t. rewrite Heq. by repeat constructor.
      * intros (init & t & Heq & Hterminal & Hinit).
        destruct init as [|ev0 init]; [by destruct rest'|].
        injection Heq as -> Heq. inversion Hinit; subst.
        split; [done|]. by exists init, t.
Qed.

(** Chunks followed by one terminal event are well framed. *)
Lemma well_framed_chunks_then (parts : list string) (last_event : json) :
  is_terminal last_event = true →
  well_framed ((chunk_event <$> parts) ++ [last_event]) = true.
Proof.
  intros Hterminal. induction parts as [|part rest IH]; [exact Hterminal|].
  rewrite fmap_cons. cbn [app].
  destruct ((chunk_event <$> rest) ++ [last_event]) as [|ev tail] eqn:Hrest.
  - by destruct rest.
  - rewrite well_framed_cons, is_terminal_chunk. exact IH.
Qed.

Lemma chunk_payloads_chunks_then (parts : list string) (last_event : json) :
  chunk_payloads [last_event] = [] →
  chunk_payloads ((chunk_event <$> parts) ++ [last_event]) = parts.
Proof.
  intros Hlast. induction parts as [|part rest IH]; [exact Hlast|].
  rewrite fmap_cons. cbn [app]. unfold chunk_event at 1.
  cbn. by rewrite IH.
Qed.

Lemma filter_is_error_chunks (parts : list string) :
  List.filter is_error (chunk_event <$> parts) = [].
Proof. induction parts as [|part rest IH]; [done|]. rewrite fmap_cons. exact IH. Qed.

(** A completion event that was built carries the converted [result.data]. *)
Lemma final_result_complete (result : StreamedRunResult.t) (ev : json) :
  final_result result = inr ev →
  ∃ d r usage,
    StreamedRunResult.data result = inr d
    ∧ to_jsonable_python d = inr r
    ∧ ev = complete_event r usage.
Proof.
  unfold final_result.
  destruct (StreamedRunResult.data result) as [e|d]; cbn; [done|].
  destruct (StreamedRunResult.usage result) as [e|u]; cbn; [done|].
  destruct (to_jsonable_python d) as [e|r] eqn:Hdata; cbn; [done|].
  destruct (to_jsonable_python u) as [e|us]; cbn; [done|].
  intros [= <-]. by exists d, r, us.
Qed.

(** The shape of what the [try] statement yields. *)
Lemma stream_body_shape (result : StreamedRunResult.t) :
  ∃ last_event,
    stream_body result
    = (chunk_event <$> (StreamedRunResult.stream_text result).1) ++ [last_event]
    ∧ match stream_failure result with
      | Some e => last_event = error_event e
      | None => final_result result = inr last_event
      end.
Proof.
  unfold stream_body, stream_failure.
  destruct (StreamedRunResult.stream_text result) as [parts [e|]]; cbn [fst snd].
  - by exists (error_event e).
  - destruct (final_result result) as [e|ev].
    + by exists (error_event e).
    + by exists ev.
Qed.

Lemma stream_body_last_terminal (result : StreamedRunResult.t) (last_event : json) :
  match stream_failure result with
  | Some e => last_event = error_event e
  | None => final_result result = inr last_event
  end →
  is_terminal last_event = true.
Proof.
  destruct (stream_failure result) as [e|].
  - intros ->. apply is_terminal_error.
  - intros Hfinal. apply final_result_complete in Hfinal as (d & r & usage & _ & _ & ->).
    apply is_terminal_complete.
Qed.

(** Once the prompt is there and the session is open, the generator yields
    the body of the [try] statement and raises what leaving the session
    raises. *)
Lemma run_and_stream_events_open (agent : Agent.t) (request_data : list (string * json))
    (prompt : json) (result : StreamedRunResult.t) :
  dict_lookup "prompt" request_data = Some prompt →
  RunStream.aenter (run_stream_session agent request_data prompt) = inr result →
  run_and_stream_events agent request_data
  = {| Generator.yielded := stream_body result;
       Generator.raised := RunStream.aexit (run_stream_session agent request_data prompt) |}.
Proof.
  intros Hprompt Henter. unfold run_and_stream_events.
  rewrite (subscript_present _ _ _ Hprompt). cbn zeta. by rewrite Henter.
Qed.

End StreamingFacts.

(** When the request carries a prompt and the session with the engine
    opens, the events the generator yields are the chunks followed by
    exactly one terminal event, which is the last one; the frames delivered
    are these events, each serialised. *)
Lemma run_and_stream_well_framed `{Framework} (agent : Agent.t)
    (request_data : list (string * json)) (prompt : json)
    (result : StreamedRunResult.t) :
  dict_lookup "prompt" request_data = Some prompt →
  RunStream.aenter (run_stream_session agent request_data prompt) = inr result →
  well_framed (Generator.yielded (run_and_stream_events agent request_data)) = true
  ∧ Generator.yielded (run_and_stream agent request_data)
    = json_dumps <$> Generator.yielded (run_and_stream_events agent request_data).
Proof.
  intros Hprompt Henter. split; [|reflexivity].
  rewrite (run_and_stream_events_open _ _ _ _ Hprompt Henter). cbn.
  destruct (stream_body_shape result) as (last_event & -> & Hlast).
  apply well_framed_chunks_then. by eapply stream_body_last_terminal.
Qed.

Lemma run_and_stream_well_framed_witness :
  dict_lookup "prompt" Demo.hi = Some (JStr "hi")
  ∧ well_framed
      (Generator.yielded (@run_and_stream_events starlette_status_detail
                            Demo.failing_agent Demo.hi)) = true.
Proof.
  split; [reflexivity|].
  exact (proj1 (@run_and_stream_well_framed starlette_status_detail Demo.failing_agent
                  Demo.hi (JStr "hi") _ eq_refl eq_refl)).
Defined.

(** C2.  What the source does with a streaming request that has no
    prompt, whatever the agent: the subscript at line 325 is outside the
    [try], so the generator ends on the [KeyError] before it has yielded
    anything; the stream carries no event at all, hence no terminal event,
    and the failure is reported by no [error] event. *)
Theorem run_and_stream_missing_prompt `{Framework} (agent : Agent.t)
    (request_data : list (string * json)) :
  dict_lookup "prompt" request_data = None →
  run_and_stream_events agent request_data
  = {| Generator.yielded := []; Generator.raised := Some (KeyError "prompt") |}
  ∧ List.filter is_terminal
      (Generator.yielded (run_and_stream_events agent request_data)) = []
  ∧ well_framed (Generator.yielded (run_and_stream_events agent request_data)) = false.
Proof.
  intros Hprompt. unfold run_and_stream_events.
  rewrite (subscript_absent _ _ Hprompt). repeat split.
Qed.

Lemma run_and_stream_missing_prompt_witness :
  dict_lookup "prompt" [("message_history", JList [])] = None
  ∧ @run_and_stream_events starlette_status_detail Demo.delta_agent
      [("message_history", JList [])]
    = {| Generator.yielded := []; Generator.raised := Some (KeyError "prompt") |}.
Proof.
  split; [reflexivity|].
  exact (proj1 (@run_and_stream_missing_prompt starlette_status_detail Demo.delta_agent
                  [("message_history", JList [])] eq_refl)).
Defined.

(** The same on the empty request. *)
Lemma run_and_stream_well_framed_counterexample :
  @run_and_stream_events starlette_status_detail Demo.delta_agent []
  = {| Generator.yielded := []; Generator.raised := Some (KeyError "prompt") |}
  ∧ well_framed
      (Generator.yielded (@run_and_stream_events starlette_status_detail
                            Demo.delta_agent [])) = false.
Proof. split; reflexivity. Qed.

(** C5, as the source has it.  When the session is open and the iterator,
    or the construction of the completion event, raises [e]: the events are
    the chunks yielded so far followed by the error event of [e], which
    carries the class name of [e] and [str(e)]; it is the only error event;
    the generator raises nothing but what leaving the session raises; and
    the message is the detail the synchronous handler gives for [e] unless
    [e] is a [ValidationError] or an [UnexpectedModelBehavior]. *)
Theorem run_and_stream_failure `{Framework} (agent : Agent.t)
    (request_data : list (string * json)) (prompt : json)
    (result : StreamedRunResult.t) (e : exn) :
  dict_lookup "prompt" request_data = Some prompt →
  RunStream.aenter (run_stream_session agent request_data prompt) = inr result →
  stream_failure result = Some e →
  Generator.yielded (run_and_stream_events agent request_data)
  = (chunk_event <$> (StreamedRunResult.stream_text result).1) ++ [error_event e]
  ∧ List.filter is_error (Generator.yielded (run_and_stream_events agent request_data))
    = [error_event e]
  ∧ error_message (error_event e) = Some (JStr (exn_str e))
  ∧ Generator.raised (run_and_stream_events agent request_data)
    = RunStream.aexit (run_stream_session agent request_data prompt)
  ∧ ((∀ errors text, e ≠ ValidationError errors text) →
     (∀ text, e ≠ UnexpectedModelBehavior text) →
     ∀ agent_id,
       failure_detail (outcome (run_sync_handlers agent_id e))
       = error_message (error_event e)).
Proof.
  intros Hprompt Henter Hfailure.
  rewrite (run_and_stream_events_open _ _ _ _ Hprompt Henter). cbn.
  destruct (stream_body_shape result) as (last_event & -> & Hlast).
  rewrite Hfailure in Hlast. subst last_event.
  split; [reflexivity|]. split.
  { rewrite List.filter_app, filter_is_error_chunks. reflexivity. }
  split; [reflexivity|]. split; [reflexivity|].
  intros Hnot_validation Hnot_behavior agent_id.
  destruct e as [status detail | errors text | text | class_name text]; cbn.
  - reflexivity.
  - by destruct (Hnot_validation errors text).
  - by destruct (Hnot_behavior text).
  - reflexivity.
Qed.

Lemma run_and_stream_failure_witness :
  stream_failure
    {| StreamedRunResult.stream_text := (["Hel"], Some (PyException "RuntimeError" "lost"));
       StreamedRunResult.data := inr (PyData JNull);
       StreamedRunResult.usage := inr Demo.usage |}
  = Some (PyException "RuntimeError" "lost")
  ∧ Generator.yielded
      (@run_and_stream_events starlette_status_detail
         (Demo.scripted ["Hel"] (Some (PyException "RuntimeError" "lost"))
            (inr (PyData JNull)))
         Demo.hi)
    = [chunk_event "Hel";
       JDict [("status", JStr "error"); ("error_type", JStr "RuntimeError");
              ("message", JStr "lost")]].
Proof.
  split; [reflexivity|].
  exact (proj1 (@run_and_stream_failure starlette_status_detail
                  (Demo.scripted ["Hel"] (Some (PyException "RuntimeError" "lost"))
                     (inr (PyData JNull)))
                  Demo.hi (JStr "hi") _ (PyException "RuntimeError" "lost")
                  eq_refl eq_refl eq_refl)).
Defined.

(** C5 as stated fails: for an engine that raises [UnexpectedModelBehavior]
    the error event carries the bare text, whereas the synchronous handler
    answers with the text behind a prefix. *)
Lemma run_and_stream_failure_counterexample :
  last (Generator.yielded
          (@run_and_stream_events starlette_status_detail Demo.failing_agent Demo.hi))
    ≫= error_message
  = Some (JStr "boom")
  ∧ failure_detail
      (outcome (@run_agent_sync starlette_status_detail Demo.registry
                  "bank_support_agent" Demo.hi))
    = Some (JStr "Unexpected model behavior: boom")
  ∧ last (Generator.yielded
            (@run_and_stream_events starlette_status_detail Demo.failing_agent Demo.hi))
      ≫= error_message
    ≠ failure_detail
        (outcome (@run_agent_sync starlette_status_detail Demo.registry
                    "bank_support_agent" Demo.hi)).
Proof. split; [reflexivity|]. split; [reflexivity|]. discriminate. Qed.

(** In a run that ends with a completion event, the payloads of the chunk
    events are exactly the texts the engine's iterator produced, in its
    order, and the completion event carries the converted [result.data]; so
    the concatenation of the payloads is the final output whenever the
    final output is the concatenation of the texts the engine produced. *)
Lemma run_and_stream_relays_text `{Framework} (agent : Agent.t)
    (request_data : list (string * json)) (final : json) :
  last (Generator.yielded (run_and_stream_events agent request_data))
    ≫= complete_result = Some final →
  ∃ prompt result d,
    dict_lookup "prompt" request_data = Some prompt
    ∧ RunStream.aenter (run_stream_session agent request_data prompt) = inr result
    ∧ StreamedRunResult.stream_text result
      = (chunk_payloads (Generator.yielded (run_and_stream_events agent request_data)),
         None)
    ∧ StreamedRunResult.data result = inr d
    ∧ to_jsonable_python d = inr final
    ∧ (final = JStr (String.concat "" (StreamedRunResult.stream_text result).1) →
       JStr (String.concat ""
               (chunk_payloads
                  (Generator.yielded (run_and_stream_events agent request_data))))
       = final).
Proof.
  unfold run_and_stream_events, subscript.
  destruct (dict_lookup "prompt" request_data) as [prompt|]; [|done].
  cbn zeta.
  destruct (RunStream.aenter (run_stream_session agent request_data prompt))
    as [e|result] eqn:Henter; [done|].
  cbn [Generator.yielded].
  destruct (stream_body_shape result) as (last_event & -> & Hlast).
  rewrite last_snoc. cbn [mbind option_bind].
  unfold stream_failure in Hlast.
  destruct (StreamedRunResult.stream_text result) as [parts [e|]] eqn:Htext;
    cbn [fst snd] in *.
  { subst last_event. done. }
  destruct (final_result result) as [e|ev] eqn:Hfinal.
  { subst last_event. done. }
  injection Hlast as <-.
  apply final_result_complete in Hfinal as (d & r & usage & Hdata & Hjson & ->).
  cbn. intros [= ->].
  exists prompt, result, d.
  rewrite chunk_payloads_chunks_then by reflexivity.
  repeat split; try done.
  rewrite Htext. by intros ->.
Qed.

Lemma run_and_stream_relays_text_witness :
  last (Generator.yielded
          (@run_and_stream_events starlette_status_detail Demo.delta_agent Demo.hi))
    ≫= complete_result
  = Some (JStr "Hello")
  ∧ ∃ prompt result d,
      dict_lookup "prompt" Demo.hi = Some prompt
      ∧ RunStream.aenter (run_stream_session Demo.delta_agent Demo.hi prompt) = inr result
      ∧ StreamedRunResult.stream_text result
        = (chunk_payloads
             (Generator.yielded
                (@run_and_stream_events starlette_status_detail Demo.delta_agent Demo.hi)),
           None)
      ∧ StreamedRunResult.data result = inr d
      ∧ to_jsonable_python d = inr (JStr "Hello")
      ∧ (JStr "Hello" = JStr (String.concat "" (StreamedRunResult.stream_text result).1) →
         JStr (String.concat ""
                 (chunk_payloads
                    (Generator.yielded
                       (@run_and_stream_events starlette_status_detail
                          Demo.delta_agent Demo.hi))))
         = JStr "Hello").
Proof.
  split; [reflexivity|].
  exact (@run_and_stream_relays_text starlette_status_detail Demo.delta_agent Demo.hi
           (JStr "Hello") eq_refl).
Defined.

(** For an engine whose iterator yields the text so far at each step, and
    whose result has a [data] to read, the chunk payloads concatenate to
    ["HelHello"] while the completion event carries ["Hello"]. *)
Lemma run_and_stream_relays_text_counterexample :
  last (Generator.yielded
          (@run_and_stream_events starlette_status_detail Demo.cumulative_agent Demo.hi))
    ≫= complete_result
  = Some (JStr "Hello")
  ∧ String.concat ""
      (chunk_payloads
         (Generator.yielded
            (@run_and_stream_events starlette_status_detail Demo.cumulative_agent
               Demo.hi)))
    = "HelHello"
  ∧ Some (JStr (String.concat ""
                  (chunk_payloads
                     (Generator.yielded
                        (@run_and_stream_events starlette_status_detail
                           Demo.cumulative_agent Demo.hi)))))
    ≠ last (Generator.yielded
              (@run_and_stream_events starlette_status_detail Demo.cumulative_agent
                 Demo.hi))
        ≫= complete_result.
Proof. split; [reflexivity|]. split; [reflexivity|]. discriminate. Qed.



(** * Further properties of the module *)

(** ** The tool table and the tool dispatcher *)

Section ToolTableFacts.

Lemma foldl_add_tool_other (tools : list Tool.t) (table : gmap string Tool.t)
    (name : string) :
  Forall (λ tool, Tool.name tool ≠ name) tools →
  foldl (λ table tool, <[Tool.name tool := tool]> table) table tools !! name = table !! name.
Proof.
  revert table. induction tools as [|tool rest IH]; intros table Hother; [done|].
  inversion Hother as [|? ? Hne Hrest]; subst. cbn [foldl].
  rewrite IH by done. by rewrite lookup_insert_ne.
Qed.

Lemma foldl_add_tool_Some (tools : list Tool.t) (table : gmap string Tool.t)
    (name : string) (tool : Tool.t) :
  foldl (λ table tool, <[Tool.name tool := tool]> table) table tools !! name = Some tool →
  (tool ∈ tools ∧ Tool.name tool = name) ∨ table !! name = Some tool.
Proof.
  revert table. induction tools as [|t rest IH]; intros table Hlookup; [by right|].
  cbn [foldl] in Hlookup. apply IH in Hlookup as [[Hin Hname]|Hlookup].
  - left. split; [by right|done].
  - destruct (decide (Tool.name t = name)) as [Heq|Hne].
    + rewrite Heq, lookup_insert_eq in Hlookup. injection Hlookup as <-.
      left. split; [by left|done].
    + rewrite lookup_insert_ne in Hlookup by done. by right.
Qed.

Lemma foldl_add_tool_is_Some (tools : list Tool.t) (table : gmap string Tool.t)
    (name : string) :
  is_Some (table !! name) ∨ (∃ tool, tool ∈ tools ∧ Tool.name tool = name) →
  is_Some (foldl (λ table tool, <[Tool.name tool := tool]> table) table tools !! name).
Proof.
  revert table. induction tools as [|t rest IH]; intros table Hname.
  - destruct Hname as [Htable|(tool & Hin & _)]; [done|]. by apply elem_of_nil in Hin.
  - cbn [foldl]. apply IH.
    destruct (decide (Tool.name t = name)) as [Heq|Hne].
    + left. rewrite Heq, lookup_insert_eq. by eexists.
    + rewrite lookup_insert_ne by done.
      destruct Hname as [Htable|(tool & Hin & Hname)]; [by left|].
      apply elem_of_cons in Hin as [->|Hin]; [done|]. right. by exists tool.
Qed.

End ToolTableFacts.

(** X1.  The tool table built from the tools of an agent holds exactly
    their names: a name resolves if and only if some tool has it, and what
    it resolves to is one of the tools, with that name. *)
Theorem agent_tools_lookup (tools : list Tool.t) (name : string) :
  (is_Some (agent_tools tools !! name)
   ↔ ∃ tool, tool ∈ tools ∧ Tool.name tool = name)
  ∧ ∀ tool, agent_tools tools !! name = Some tool →
            tool ∈ tools ∧ Tool.name tool = name.
Proof.
  assert (∀ tool, agent_tools tools !! name = Some tool →
                  tool ∈ tools ∧ Tool.name tool = name) as Hsome.
  { intros tool Hlookup. unfold agent_tools in Hlookup.
    apply foldl_add_tool_Some in Hlookup as [Hin|Hempty]; [done|].
    by rewrite lookup_empty in Hempty. }
  split; [|exact Hsome]. split.
  - intros [tool Hlookup]. exists tool. by apply Hsome.
  - intros Hname. unfold agent_tools. apply foldl_add_tool_is_Some. by right.
Qed.

(** X2.  When several tools of an agent share a name, the table resolves
    the name to the last of them. *)
Theorem agent_tools_last_wins (before after : list Tool.t) (tool : Tool.t) :
  Forall (λ later, Tool.name later ≠ Tool.name tool) after →
  agent_tools (before ++ tool :: after) !! Tool.name tool = Some tool.
Proof.
  intros Hafter. unfold agent_tools. rewrite foldl_app. cbn [foldl].
  rewrite foldl_add_tool_other by done. apply lookup_insert_eq.
Qed.

Lemma agent_tools_last_wins_witness :
  agent_tools [Samples.divide; Samples.now; Samples.divide'] !! "divide"
  = Some Samples.divide'.
Proof.
  exact (agent_tools_last_wins [Samples.divide; Samples.now] [] Samples.divide'
           (Forall_nil_2 _)).
Defined.

(** X3.  On a registered agent whose tools can be read, a call of a tool
    that is not among them is answered with status 404 and a detail naming
    the tool and the agent; no tool is called and nothing is logged. *)
Theorem call_tool_unknown_tool `{Framework} (registry : gmap string Agent.t)
    (agent_id tool_name : string) (agent : Agent.t) (tools : list Tool.t)
    (request_data : list (string * json)) :
  registry !! agent_id = Some agent →
  Agent.tools agent = inr tools →
  Forall (λ tool, Tool.name tool ≠ tool_name) tools →
  call_tool registry agent_id tool_name request_data
  = ([], inl (HTTPException 404
                (JStr ("Tool '" +:+ tool_name +:+ "' not found for agent '" +:+
                       agent_id +:+ "'")))).
Proof.
  intros Hagent Htools Hnone. unfold call_tool. rewrite Hagent, Htools. cbn.
  assert (agent_tools tools !! tool_name = None) as ->; [|done].
  unfold agent_tools. rewrite foldl_add_tool_other by done. apply lookup_empty.
Qed.

Lemma call_tool_unknown_tool_witness :
  Demo.registry !! "example_agent" = Some Demo.delta_agent
  ∧ @call_tool starlette_status_detail Demo.registry "example_agent" "multiply" []
    = ([], inl (HTTPException 404
                  (JStr "Tool 'multiply' not found for agent 'example_agent'"))).
Proof.
  split; [reflexivity|].
  refine (@call_tool_unknown_tool starlette_status_detail Demo.registry "example_agent"
            "multiply" Demo.delta_agent [Demo.add] [] eq_refl eq_refl _).
  repeat constructor. discriminate.
Defined.

(** X4.  When the tool function raises, the exception does not leave
    [call_tool]: it is logged and answered with status 500 and the detail
    ["Error calling tool: "] followed by [str(e)]. *)
Theorem call_tool_function_raises `{Framework} (registry : gmap string Agent.t)
    (agent_id tool_name : string) (agent : Agent.t) (tools : list Tool.t) (tool : Tool.t)
    (request_data : list (string * json)) (e : exn) :
  registry !! agent_id = Some agent →
  Agent.tools agent = inr tools →
  agent_tools tools !! tool_name = Some tool →
  Tool.function tool (dict_get_default "args" (JDict []) request_data) = inl e →
  call_tool registry agent_id tool_name request_data
  = ([ToolCalled tool_name (dict_get_default "args" (JDict []) request_data);
      Logged EXCEPTION
        (Text ("Error calling tool '" +:+ tool_name +:+ "' for agent '" +:+
               agent_id +:+ "': " +:+ exn_str e))],
     inl (HTTPException 500 (JStr ("Error calling tool: " +:+ exn_str e)))).
Proof.
  intros Hagent Htools Htool Hraise. unfold call_tool. rewrite Hagent, Htools. cbn.
  rewrite Htool. cbn. rewrite Hraise. reflexivity.
Qed.

Lemma call_tool_function_raises_witness :
  outcome (@call_tool starlette_status_detail Demo.registry "example_agent" "add"
             [("args", JDict [("a", JInt 1)])])
  = inl (HTTPException 500
           (JStr "Error calling tool: add() missing 1 required positional argument: 'b'")).
Proof.
  exact (f_equal snd
           (@call_tool_function_raises starlette_status_detail Demo.registry
              "example_agent" "add" Demo.delta_agent [Demo.add] Demo.add
              [("args", JDict [("a", JInt 1)])]
              (TypeError "add() missing 1 required positional argument: 'b'")
              eq_refl eq_refl eq_refl eq_refl)).
Defined.

(** X5.  When the tool returns an object that [json.dumps] does not know,
    the tool has run, and the call is answered with status 500 and the text
    of the encoder's [TypeError]. *)
Theorem call_tool_unserializable_result `{Framework} (registry : gmap string Agent.t)
    (agent_id tool_name : string) (agent : Agent.t) (tools : list Tool.t) (tool : Tool.t)
    (request_data : list (string * json)) (type_name : string) (jsonable : exn + json) :
  registry !! agent_id = Some agent →
  Agent.tools agent = inr tools →
  agent_tools tools !! tool_name = Some tool →
  Tool.function tool (dict_get_default "args" (JDict []) request_data)
  = inr (PyObject type_name jsonable) →
  effects (call_tool registry agent_id tool_name request_data)
  = [ToolCalled tool_name (dict_get_default "args" (JDict []) request_data);
     Logged EXCEPTION
       (Text ("Error calling tool '" +:+ tool_name +:+ "' for agent '" +:+ agent_id +:+
              "': Object of type " +:+ type_name +:+ " is not JSON serializable"))]
  ∧ outcome (call_tool registry agent_id tool_name request_data)
    = inl (HTTPException 500
             (JStr ("Error calling tool: Object of type " +:+ type_name +:+
                    " is not JSON serializable"))).
Proof.
  intros Hagent Htools Htool Hresult. unfold call_tool. rewrite Hagent, Htools. cbn.
  rewrite Htool. cbn. rewrite Hresult. split; reflexivity.
Qed.

Lemma call_tool_unserializable_result_witness :
  outcome (@call_tool starlette_status_detail Samples.registry "example_agent" "now" [])
  = inl (HTTPException 500
           (JStr "Error calling tool: Object of type datetime is not JSON serializable")).
Proof.
  exact (proj2 (@call_tool_unserializable_result starlette_status_detail
                  Samples.registry "example_agent" "now" Samples.tooled_agent
                  [Samples.divide; Samples.now; Samples.divide'] Samples.now
                  [] "datetime" (inr (JStr "2024-01-01T00:00:00"))
                  eq_refl eq_refl eq_refl eq_refl)).
Defined.

(** X6.  Whatever the registry, the names and the request, [call_tool] ends
    in one of four ways: status 200 with a single entry ["result"] that is
    a string, the JSON text of the tool's value; an [HTTPException] with
    status 404, without any effect; an [HTTPException] with status 500
    whose detail starts with ["Error calling tool: "]; or, when reading
    [agent.tools] raises, that exception as it is, without any effect. *)
Theorem call_tool_outcomes `{Framework} (registry : gmap string Agent.t)
    (agent_id tool_name : string) (request_data : list (string * json)) :
  (∃ result_json,
     outcome (call_tool registry agent_id tool_name request_data)
     = inr (JSONResponse (JDict [("result", JStr result_json)]) 200))
  ∨ (∃ detail,
       call_tool registry agent_id tool_name request_data
       = ([], inl (HTTPException 404 (JStr detail))))
  ∨ (∃ text,
       outcome (call_tool registry agent_id tool_name request_data)
       = inl (HTTPException 500 (JStr ("Error calling tool: " +:+ text))))
  ∨ (∃ agent e,
       registry !! agent_id = Some agent
       ∧ Agent.tools agent = inl e
       ∧ call_tool registry agent_id tool_name request_data = ([], inl e)).
Proof.
  unfold call_tool.
  destruct (registry !! agent_id) as [agent|]; [|right; left; by eexists].
  destruct (Agent.tools agent) as [e|tools] eqn:Htools;
    [right; right; right; by exists agent, e|].
  cbn.
  destruct (agent_tools tools !! tool_name) as [tool|]; [|right; left; by eexists].
  cbn.
  destruct (Tool.function tool (dict_get_default "args" (JDict []) request_data))
    as [e|result]; cbn; [right; right; left; by eexists|].
  destruct result as [v|type_name jsonable]; cbn.
  - left. by eexists.
  - right; right; left. by eexists.
Qed.

(** ** Synchronous runs *)

Section MonadFacts.

Lemma outcome_bind {A B} (m : M A) (k : A → M B) :
  outcome (m ≫= k)
  = match outcome m with
    | inl e => inl e
    | inr a => outcome (k a)
    end.
Proof.
  destruct m as [t [e|a]]; [reflexivity|].
  unfold mbind, M_bind, bind, outcome. cbn. by destruct (k a).
Qed.

Lemma outcome_try_except {A} (body : M A) (handler : exn → M A) :
  outcome (try_except body handler)
  = match outcome body with
    | inl e => outcome (handler e)
    | inr a => inr a
    end.
Proof.
  destruct body as [t [e|a]]; [|reflexivity].
  unfold try_except, outcome. cbn. by destruct (handler e).
Qed.

Lemma outcome_lift {A} (r : exn + A) : outcome (lift r) = r.
Proof. reflexivity. Qed.

End MonadFacts.

Section SyncFacts.
Context `{Framework}.

(** Each [except] clause of [run_agent_sync] ends by raising an
    [HTTPException], with status 400 or 500. *)
Lemma run_sync_handlers_raise (agent_id : string) (e : exn) :
  ∃ status detail,
    outcome (run_sync_handlers agent_id e) = inl (HTTPException status detail)
    ∧ (status = 400 ∨ status = 500).
Proof.
  destruct e as [status detail | errors text | text | class_name text]; cbn;
    eexists _, _; split; try reflexivity; auto.
Qed.

Lemma new_JSONResponse_status (content : list (string * pyobj)) (response : Response) :
  new_JSONResponse content = inr response → ∃ entries, response = JSONResponse entries 200.
Proof.
  unfold new_JSONResponse. destruct (render_content content); [done|].
  intros [= <-]. by eexists.
Qed.

End SyncFacts.

(** X7.  A run that the engine ends with [UnexpectedModelBehavior] is
    answered, by both definitions of [run_agent_sync], with status 500 and
    the detail ["Unexpected model behavior: "] followed by [str(e)], after
    one error line in the log. *)
Theorem run_agent_sync_unexpected_model_behavior `{Framework}
    (registry : gmap string Agent.t) (agent_id : string) (agent : Agent.t)
    (request_data : list (string * json)) (prompt : json) (text : string) :
  registry !! agent_id = Some agent →
  dict_lookup "prompt" request_data = Some prompt →
  Agent.run_sync agent prompt
    (dict_get "message_history" request_data)
    (dict_get "model_settings" request_data)
    (dict_get "usage_limits" request_data)
  = inl (UnexpectedModelBehavior text) →
  run_agent_sync registry agent_id request_data
  = ([EngineRunSync agent_id prompt;
      Logged ERROR
        (Text ("Agent " +:+ agent_id +:+
               " encountered an unexpected model behavior: " +:+ text))],
     inl (HTTPException 500 (JStr ("Unexpected model behavior: " +:+ text))))
  ∧ run_agent_sync' registry agent_id request_data
    = run_agent_sync registry agent_id request_data.
Proof.
  intros Hagent Hprompt Hrun.
  unfold run_agent_sync, run_agent_sync', call_run_sync.
  rewrite Hagent, (subscript_present _ _ _ Hprompt). cbn. rewrite Hrun.
  split; reflexivity.
Qed.

Lemma run_agent_sync_unexpected_model_behavior_witness :
  @run_agent_sync starlette_status_detail Demo.registry "bank_support_agent" Demo.hi
  = ([EngineRunSync "bank_support_agent" (JStr "hi");
      Logged ERROR
        (Text "Agent bank_support_agent encountered an unexpected model behavior: boom")],
     inl (HTTPException 500 (JStr "Unexpected model behavior: boom"))).
Proof.
  exact (proj1 (@run_agent_sync_unexpected_model_behavior starlette_status_detail
                  Demo.registry "bank_support_agent" Demo.failing_agent Demo.hi
                  (JStr "hi") "boom" eq_refl eq_refl eq_refl)).
Defined.

(** X8.  A run that the engine ends with any exception other than a
    [ValidationError] or an [UnexpectedModelBehavior] is answered, by both
    definitions, with status 500 and [str(e)] as the detail, after one line
    logged with the traceback. *)
Theorem run_agent_sync_other_exception `{Framework}
    (registry : gmap string Agent.t) (agent_id : string) (agent : Agent.t)
    (request_data : list (string * json)) (prompt : json) (e : exn) :
  registry !! agent_id = Some agent →
  dict_lookup "prompt" request_data = Some prompt →
  Agent.run_sync agent prompt
    (dict_get "message_history" request_data)
    (dict_get "model_settings" request_data)
    (dict_get "usage_limits" request_data)
  = inl e →
  (∀ errors text, e ≠ ValidationError errors text) →
  (∀ text, e ≠ UnexpectedModelBehavior text) →
  run_agent_sync registry agent_id request_data
  = ([EngineRunSync agent_id prompt;
      Logged EXCEPTION
        (Text ("Agent " +:+ agent_id +:+ " encountered an unexpected error: " +:+
               exn_str e))],
     inl (HTTPException 500 (JStr (exn_str e))))
  ∧ run_agent_sync' registry agent_id request_data
    = run_agent_sync registry agent_id request_data.
Proof.
  intros Hagent Hprompt Hrun Hnot_validation Hnot_behavior.
  unfold run_agent_sync, run_agent_sync', call_run_sync.
  rewrite Hagent, (subscript_present _ _ _ Hprompt). cbn. rewrite Hrun.
  destruct e as [status detail | errors text | text | class_name text].
  - split; reflexivity.
  - by destruct (Hnot_validation errors text).
  - by destruct (Hnot_behavior text).
  - split; reflexivity.
Qed.

Lemma run_agent_sync_other_exception_witness :
  @run_agent_sync starlette_status_detail Samples.registry "bank_support_agent" Demo.hi
  = ([EngineRunSync "bank_support_agent" (JStr "hi");
      Logged EXCEPTION
        (Text "Agent bank_support_agent encountered an unexpected error: lost")],
     inl (HTTPException 500 (JStr "lost"))).
Proof.
  refine (proj1 (@run_agent_sync_other_exception starlette_status_detail
                   Samples.registry "bank_support_agent" Samples.broken_agent Demo.hi
                   (JStr "hi") (PyException "RuntimeError" "lost")
                   eq_refl eq_refl eq_refl _ _)); discriminate.
Defined.

(** X9.  A run that succeeds with a result and usage that convert to JSON:
    the second definition of [run_agent_sync] answers with status 200 and
    the two entries ["result"] and ["usage"] and logs nothing; the first
    definition, when the transcript is plain data, logs one line and answers
    with the same two entries followed by ["messages"]. *)
Theorem run_agent_sync_success `{Framework}
    (registry : gmap string Agent.t) (agent_id : string) (agent : Agent.t)
    (request_data : list (string * json)) (prompt : json) (result : RunResult.t)
    (r u : json) :
  registry !! agent_id = Some agent →
  dict_lookup "prompt" request_data = Some prompt →
  Agent.run_sync agent prompt
    (dict_get "message_history" request_data)
    (dict_get "model_settings" request_data)
    (dict_get "usage_limits" request_data)
  = inr result →
  to_jsonable_python (RunResult.data result) = inr r →
  to_jsonable_python (RunResult.usage result) = inr u →
  run_agent_sync' registry agent_id request_data
  = ([EngineRunSync agent_id prompt],
     inr (JSONResponse (JDict [("result", r); ("usage", u)]) 200))
  ∧ ∀ transcript,
      RunResult.messages result = PyData transcript →
      run_agent_sync registry agent_id request_data
      = ([EngineRunSync agent_id prompt;
          Logged INFO (Text ("Agent " +:+ agent_id +:+ " completed run_sync successfully"))],
         inr (JSONResponse
                (JDict [("result", r); ("usage", u); ("messages", transcript)]) 200)).
Proof.
  intros Hagent Hprompt Hrun Hdata Husage.
  unfold run_agent_sync, run_agent_sync', call_run_sync.
  rewrite Hagent, (subscript_present _ _ _ Hprompt). cbn. rewrite Hrun. cbn.
  rewrite Hdata, Husage. split; [reflexivity|].
  intros transcript ->. reflexivity.
Qed.

Lemma run_agent_sync_success_witness :
  @run_agent_sync' starlette_status_detail Samples.registry "example_agent" Demo.hi
  = ([EngineRunSync "example_agent" (JStr "hi")],
     inr (JSONResponse
            (JDict [("result", JStr "Hello"); ("usage", JDict [("requests", JInt 1)])])
            200)).
Proof.
  exact (proj1 (@run_agent_sync_success starlette_status_detail Samples.registry
                  "example_agent" Samples.tooled_agent Demo.hi (JStr "hi") _
                  (JStr "Hello") (JDict [("requests", JInt 1)])
                  eq_refl eq_refl eq_refl eq_refl eq_refl)).
Defined.

(** X10.  When the run succeeds but its transcript is an object that
    [json.dumps] does not know, the first definition of [run_agent_sync]
    logs the run as completed and then answers with status 500 and the text
    of the encoder's [TypeError]; the second definition, which leaves the
    transcript out, is not affected. *)
Theorem run_agent_sync_opaque_transcript `{Framework}
    (registry : gmap string Agent.t) (agent_id : string) (agent : Agent.t)
    (request_data : list (string * json)) (prompt : json) (result : RunResult.t)
    (r u : json) (type_name : string) (jsonable : exn + json) :
  registry !! agent_id = Some agent →
  dict_lookup "prompt" request_data = Some prompt →
  Agent.run_sync agent prompt
    (dict_get "message_history" request_data)
    (dict_get "model_settings" request_data)
    (dict_get "usage_limits" request_data)
  = inr result →
  to_jsonable_python (RunResult.data result) = inr r →
  to_jsonable_python (RunResult.usage result) = inr u →
  RunResult.messages result = PyObject type_name jsonable →
  run_agent_sync registry agent_id request_data
  = ([EngineRunSync agent_id prompt;
      Logged INFO (Text ("Agent " +:+ agent_id +:+ " completed run_sync successfully"));
      Logged EXCEPTION
        (Text ("Agent " +:+ agent_id +:+ " encountered an unexpected error: Object of type "
               +:+ type_name +:+ " is not JSON serializable"))],
     inl (HTTPException 500
            (JStr ("Object of type " +:+ type_name +:+ " is not JSON serializable"))))
  ∧ status_of (outcome (run_agent_sync' registry agent_id request_data)) = 200.
Proof.
  intros Hagent Hprompt Hrun Hdata Husage Hmessages.
  unfold run_agent_sync, run_agent_sync', call_run_sync.
  rewrite Hagent, (subscript_present _ _ _ Hprompt). cbn. rewrite Hrun. cbn.
  rewrite Hdata, Husage, Hmessages. split; reflexivity.
Qed.

Lemma run_agent_sync_opaque_transcript_witness :
  outcome (@run_agent_sync starlette_status_detail Samples.registry "example_agent"
             Demo.hi)
  = inl (HTTPException 500
           (JStr "Object of type ModelRequest is not JSON serializable")).
Proof.
  exact (f_equal snd
           (proj1 (@run_agent_sync_opaque_transcript starlette_status_detail
                     Samples.registry "example_agent" Samples.tooled_agent Demo.hi
                     (JStr "hi") _ (JStr "Hello") (JDict [("requests", JInt 1)])
                     "ModelRequest" (inr (JList []))
                     eq_refl eq_refl eq_refl eq_refl eq_refl eq_refl))).
Defined.

Section OutcomeFacts.
Context `{Framework}.

Lemma run_sync_handlers_normalized (agent_id : string) (e : exn) :
  is_normalized (outcome (run_sync_handlers agent_id e)).
Proof. by destruct e. Qed.

Lemma try_run_sync_normalized (agent_id : string) (body : M Response) :
  is_normalized (outcome (try_except body (run_sync_handlers agent_id))).
Proof.
  rewrite outcome_try_except. destruct (outcome body) as [e|response]; [|done].
  apply run_sync_handlers_normalized.
Qed.

Lemma call_tool_normalized (registry : gmap string Agent.t) (agent_id tool_name : string)
    (request_data : list (string * json)) :
  is_normalized (outcome (call_tool registry agent_id tool_name request_data))
  ∨ ∃ agent e,
      registry !! agent_id = Some agent
      ∧ Agent.tools agent = inl e
      ∧ call_tool registry agent_id tool_name request_data = ([], inl e).
Proof.
  unfold call_tool.
  destruct (registry !! agent_id) as [agent|]; [|by left].
  destruct (Agent.tools agent) as [e|tools] eqn:Htools; [right; by exists agent, e|].
  left. rewrite outcome_bind, outcome_lift.
  destruct (agent_tools tools !! tool_name) as [tool|]; [|done].
  cbn zeta. rewrite outcome_try_except.
  match goal with |- is_normalized (match ?o with _ => _ end) => by destruct o end.
Qed.

Lemma create_agent_normalized (registry : gmap string Agent.t)
    (data : list (string * json)) :
  is_normalized (outcome (create_agent registry data).2).
Proof. by destruct (create_agent_raises registry data) as [text ->]. Qed.

End OutcomeFacts.

(** X11.  Whatever the registry, the id and the request, both definitions
    of [run_agent_sync] end in one of four ways: status 200 with a JSON
    body; the 404 [HTTPException] of an unknown agent, without any effect;
    an [HTTPException] with status 400 carrying a list of validation
    errors; or an [HTTPException] with status 500 carrying a text.  No other
    exception leaves them. *)
Theorem run_agent_sync_outcomes `{Framework} (registry : gmap string Agent.t)
    (agent_id : string) (request_data : list (string * json)) :
  let ends (m : M Response) :=
    (∃ content, outcome m = inr (JSONResponse content 200))
    ∨ m = ([], inl agent_not_found)
    ∨ (∃ errors, outcome m = inl (HTTPException 400 errors))
    ∨ (∃ text, outcome m = inl (HTTPException 500 (JStr text))) in
  ends (run_agent_sync registry agent_id request_data)
  ∧ ends (run_agent_sync' registry agent_id request_data).
Proof.
  assert (∀ body : M Response,
            (∀ response, outcome body = inr response →
                         ∃ content, response = JSONResponse content 200) →
            (∃ content,
               outcome (try_except body (run_sync_handlers agent_id))
               = inr (JSONResponse content 200))
            ∨ (∃ errors,
                 outcome (try_except body (run_sync_handlers agent_id))
                 = inl (HTTPException 400 errors))
            ∨ (∃ text,
                 outcome (try_except body (run_sync_handlers agent_id))
                 = inl (HTTPException 500 (JStr text)))) as Htry.
  { intros body Hbody. rewrite outcome_try_except.
    destruct (outcome body) as [e|response].
    - destruct e as [status detail | errors text | text | class_name text]; cbn; eauto.
    - destruct (Hbody response eq_refl) as [content ->]. eauto. }
  cbn zeta. unfold run_agent_sync, run_agent_sync'.
  destruct (registry !! agent_id) as [agent|]; [|by split; right; left].
  split.
  - destruct (Htry (result ← call_run_sync agent_id agent request_data;
                    _ ← tell (Logged INFO
                                (Text ("Agent " +:+ agent_id +:+
                                       " completed run_sync successfully")));
                    r ← lift (to_jsonable_python (RunResult.data result));
                    u ← lift (to_jsonable_python (RunResult.usage result));
                    lift (new_JSONResponse
                            [("result", PyData r); ("usage", PyData u);
                             ("messages", RunResult.messages result)])))
      as [?|[?|?]]; [|tauto..].
    intros response.
    repeat (rewrite outcome_bind;
            match goal with
            | |- context [match ?o with inl _ => _ | inr _ => _ end] =>
                destruct o; try done
            end).
    rewrite outcome_lift. apply new_JSONResponse_status.
  - destruct (Htry (result ← call_run_sync agent_id agent request_data;
                    r ← lift (to_jsonable_python (RunResult.data result));
                    u ← lift (to_jsonable_python (RunResult.usage result));
                    lift (new_JSONResponse [("result", PyData r); ("usage", PyData u)])))
      as [?|[?|?]]; [|tauto..].
    intros response.
    repeat (rewrite outcome_bind;
            match goal with
            | |- context [match ?o with inl _ => _ | inr _ => _ end] =>
                destruct o; try done
            end).
    rewrite outcome_lift. apply new_JSONResponse_status.
Qed.

(** X12.  The only exception other than an [HTTPException] that leaves a
    handler is the one raised by reading [agent.tools] in [call_tool]:
    whatever the request, what the handler returns or raises is a response
    or an [HTTPException], unless the request is a tool call on a registered
    agent whose [agent.tools] raises, in which case that exception leaves
    the handler as it is and without any effect. *)
Theorem handlers_raise_only_HTTPException `{Framework} (registry : gmap string Agent.t)
    (req : request) :
  match handle registry req with
  | Some (_, m) =>
      is_normalized (outcome m)
      ∨ ∃ agent_id tool_name request_data agent e,
          req = CallTool agent_id tool_name request_data
          ∧ registry !! agent_id = Some agent
          ∧ Agent.tools agent = inl e
          ∧ m = ([], inl e)
  | None => True
  end.
Proof.
  destruct req as [data | a rd | a tool rd | a entry | a rd | a]; cbn [handle].
  - left. apply create_agent_normalized.
  - left. unfold run_agent_sync. destruct (registry !! a); [|done].
    apply try_run_sync_normalized.
  - destruct (call_tool_normalized registry a tool rd)
      as [Hnormal|(agent & e & Hagent & Htools & Hcall)]; [by left|].
    right. by exists a, tool, rd, agent, e.
  - by left.
  - left. unfold run_agent_stream. by destruct (registry !! a).
  - unfold crash_agent. destruct (registry !! a); [done|by left].
Qed.



(** ** Registration payloads *)

(** X15.  A registration whose id is not in the registry fails on the first
    of the fields [model] and [system_prompt] that the payload lacks, with
    status 500 and the quoted field name as detail, and on [_resolve_tools]
    when both are there; in every case the registry is left as it was. *)
Theorem create_agent_first_missing_field `{Framework} (registry : gmap string Agent.t)
    (data : list (string * json)) (agent_id : json) :
  dict_lookup "agent_id" data = Some agent_id →
  registry_contains registry agent_id = inr false →
  create_agent registry data
  = (registry,
     ([], inl (HTTPException 500
                 (JStr match dict_lookup "model" data, dict_lookup "system_prompt" data with
                       | None, _ => "'model'"
                       | Some _, None => "'system_prompt'"
                       | Some _, Some _ => "name '_resolve_tools' is not defined"
                       end)))).
Proof.
  intros Hid Hfresh. unfold create_agent.
  rewrite (subscript_present _ _ _ Hid). cbn -[registry_contains].
  rewrite Hfresh. unfold subscript.
  destruct (dict_lookup "model" data); [|reflexivity].
  by destruct (dict_lookup "system_prompt" data).
Qed.

Lemma create_agent_first_missing_field_witness :
  (@create_agent starlette_status_detail Demo.registry
     [("agent_id", JInt 7); ("model", JStr "gpt-4o")]).2
  = ([], inl (HTTPException 500 (JStr "'system_prompt'"))).
Proof.
  exact (f_equal snd
           (@create_agent_first_missing_field starlette_status_detail Demo.registry
              [("agent_id", JInt 7); ("model", JStr "gpt-4o")] (JInt 7)
              eq_refl eq_refl)).
Defined.

(** X16.  A registration without an [agent_id], or with one that is a list
    or a dict, fails with status 500 before the registry or any other field
    is looked at: the detail is the quoted key, or the text of the
    [TypeError] of an unhashable value. *)
Theorem create_agent_bad_agent_id `{Framework} (registry : gmap string Agent.t)
    (data : list (string * json)) :
  match dict_lookup "agent_id" data with
  | Some (JStr _ | JNull | JBool _ | JInt _) => True
  | None =>
      create_agent registry data
      = (registry, ([], inl (HTTPException 500 (JStr "'agent_id'"))))
  | Some (JList _) =>
      create_agent registry data
      = (registry, ([], inl (HTTPException 500 (JStr "unhashable type: 'list'"))))
  | Some (JDict _) =>
      create_agent registry data
      = (registry, ([], inl (HTTPException 500 (JStr "unhashable type: 'dict'"))))
  end.
Proof.
  unfold create_agent, subscript.
  destruct (dict_lookup "agent_id" data) as [[| b | z | s | items | entries]|]; done.
Qed.

(** ** More on streaming *)

(** X17.  On a registered agent [run_agent_stream] answers with status 200
    and a streaming body whatever the request holds, without any effect of
    its own; when the request has no prompt, that body yields no frame and
    ends with the [KeyError] of the missing key. *)
Theorem run_agent_stream_registered `{Framework} (registry : gmap string Agent.t)
    (agent_id : string) (agent : Agent.t) (request_data : list (string * json)) :
  registry !! agent_id = Some agent →
  run_agent_stream registry agent_id request_data
  = ([], inr (StreamingResponse (run_and_stream agent request_data)))
  ∧ status_of (outcome (run_agent_stream registry agent_id request_data)) = 200
  ∧ (dict_lookup "prompt" request_data = None →
     run_and_stream agent request_data
     = {| Generator.yielded := []; Generator.raised := Some (KeyError "prompt") |}).
Proof.
  intros Hagent. unfold run_agent_stream. rewrite Hagent.
  split; [reflexivity|]. split; [reflexivity|].
  intros Hprompt. unfold run_and_stream, run_and_stream_events.
  by rewrite (subscript_absent _ _ Hprompt).
Qed.

Lemma run_agent_stream_registered_witness :
  @run_agent_stream starlette_status_detail Demo.registry "example_agent" []
  = ([], inr (StreamingResponse
                {| Generator.yielded := [];
                   Generator.raised := Some (KeyError "prompt") |})).
Proof.
  exact (proj1 (@run_agent_stream_registered starlette_status_detail Demo.registry
                  "example_agent" Demo.delta_agent [] eq_refl)).
Defined.

(** X18.  When the session with the engine fails to open, the generator
    yields no frame and ends with the exception of the entry; the exit of
    the session does not take part. *)
Theorem run_and_stream_session_fails `{Framework} (agent : Agent.t)
    (request_data : list (string * json)) (prompt : json) (e : exn) :
  dict_lookup "prompt" request_data = Some prompt →
  RunStream.aenter (run_stream_session agent request_data prompt) = inl e →
  run_and_stream agent request_data
  = {| Generator.yielded := []; Generator.raised := Some e |}.
Proof.
  intros Hprompt Henter. unfold run_and_stream, run_and_stream_events.
  rewrite (subscript_present _ _ _ Hprompt). cbn zeta. by rewrite Henter.
Qed.

Lemma run_and_stream_session_fails_witness :
  @run_and_stream starlette_status_detail Samples.tooled_agent Demo.hi
  = {| Generator.yielded := [];
       Generator.raised := Some (PyException "ConnectionError" "engine unreachable") |}.
Proof.
  exact (@run_and_stream_session_fails starlette_status_detail Samples.tooled_agent
           Demo.hi (JStr "hi") (PyException "ConnectionError" "engine unreachable")
           eq_refl eq_refl).
Defined.

(** X19.  Once the session is open, every text the iterator produced is
    delivered as a chunk, in the order produced, however the run ends, and
    the frames are one per text and one more for the terminal event. *)
Theorem run_and_stream_delivers_every_text `{Framework} (agent : Agent.t)
    (request_data : list (string * json)) (prompt : json)
    (result : StreamedRunResult.t) :
  dict_lookup "prompt" request_data = Some prompt →
  RunStream.aenter (run_stream_session agent request_data prompt) = inr result →
  chunk_payloads (Generator.yielded (run_and_stream_events agent request_data))
  = (StreamedRunResult.stream_text result).1
  ∧ List.length (Generator.yielded (run_and_stream agent request_data))
    = S (List.length (StreamedRunResult.stream_text result).1).
Proof.
  intros Hprompt Henter. unfold run_and_stream.
  rewrite (run_and_stream_events_open _ _ _ _ Hprompt Henter). cbn.
  destruct (stream_body_shape result) as (last_event & -> & Hlast).
  assert (chunk_payloads [last_event] = []) as Hpayload.
  { destruct (stream_failure result) as [e|].
    - by subst.
    - by apply final_result_complete in Hlast as (d & r & usage & _ & _ & ->). }
  split.
  - by apply chunk_payloads_chunks_then.
  - rewrite length_fmap, length_app, length_fmap. cbn. lia.
Qed.

Lemma run_and_stream_delivers_every_text_witness :
  chunk_payloads
    (Generator.yielded
       (@run_and_stream_events starlette_status_detail Demo.failing_agent Demo.hi))
  = ["Hel"].
Proof.
  exact (proj1 (@run_and_stream_delivers_every_text starlette_status_detail
                  Demo.failing_agent Demo.hi (JStr "hi") _ eq_refl eq_refl)).
Defined.

(** X20.  Once the session is open, the run ends with a completion event
    exactly when the iterator ended without an exception and [result.data],
    [result.usage()] and the conversion of both succeeded; the event then
    carries the two converted values. *)
Theorem run_and_stream_completes_iff `{Framework} (agent : Agent.t)
    (request_data : list (string * json)) (prompt : json)
    (result : StreamedRunResult.t) (r u : json) :
  dict_lookup "prompt" request_data = Some prompt →
  RunStream.aenter (run_stream_session agent request_data prompt) = inr result →
  last (Generator.yielded (run_and_stream_events agent request_data))
  = Some (complete_event r u)
  ↔ (StreamedRunResult.stream_text result).2 = None
    ∧ ∃ d us,
        StreamedRunResult.data result = inr d
        ∧ StreamedRunResult.usage result = inr us
        ∧ to_jsonable_python d = inr r
        ∧ to_jsonable_python us = inr u.
Proof.
  intros Hprompt Henter.
  rewrite (run_and_stream_events_open _ _ _ _ Hprompt Henter). cbn.
  unfold stream_body, final_result.
  destruct (StreamedRunResult.stream_text result) as [parts [e|]]; cbn [snd].
  { rewrite last_snoc. split; [done|]. by intros [? _]. }
  destruct (StreamedRunResult.data result) as [e|d]; cbn.
  { rewrite last_snoc. split; [done|]. by intros (_ & ? & ? & ? & _). }
  destruct (StreamedRunResult.usage result) as [e|us]; cbn.
  { rewrite last_snoc. split; [done|]. by intros (_ & ? & ? & _ & ? & _). }
  destruct (to_jsonable_python d) as [e|r'] eqn:Hd; cbn.
  { rewrite last_snoc. split; [done|].
    intros (_ & ? & ? & [= <-] & _ & ? & _). congruence. }
  destruct (to_jsonable_python us) as [e|u'] eqn:Hu; cbn.
  { rewrite last_snoc. split; [done|].
    intros (_ & ? & ? & _ & [= <-] & _ & ?). congruence. }
  rewrite last_snoc. split.
  - intros [= <- <-]. split; [done|]. by exists d, us.
  - intros (_ & ? & ? & [= <-] & [= <-] & ? & ?). congruence.
Qed.

Lemma run_and_stream_completes_iff_witness :
  last (Generator.yielded
          (@run_and_stream_events starlette_status_detail Demo.delta_agent Demo.hi))
  = Some (complete_event (JStr "Hello") (JDict [("requests", JInt 1)])).
Proof.
  refine (proj2 (@run_and_stream_completes_iff starlette_status_detail Demo.delta_agent
                   Demo.hi (JStr "hi") _ (JStr "Hello") (JDict [("requests", JInt 1)])
                   eq_refl eq_refl) _).
  split; [reflexivity|].
  exists (PyData (JStr "Hello")), Demo.usage. repeat split.
Defined.

(** ** The result type configuration *)

Section ResultTypeFacts.
Context `{Interpreter}.

(** One field resolves exactly when its description is a dict whose
    ["type"] is one of the names of the table. *)
Lemma field_resolves (field_info : json) (t : field_type) :
  field_info_type field_info ≫= field_type_of = inr t
  ↔ ∃ entries s,
      field_info = JDict entries
      ∧ dict_lookup "type" entries = Some (JStr s)
      ∧ table_lookup s field_type_table = Some t.
Proof.
  split.
  - destruct field_info as [| b | z | s | items | entries]; try done.
    cbn -[table_lookup]. unfold subscript.
    destruct (dict_lookup "type" entries) as [key|] eqn:Htype; [|done].
    cbn -[table_lookup].
    destruct key as [| b | z | s | items | entries']; try done.
    unfold field_type_of.
    destruct (table_lookup s field_type_table) as [t'|] eqn:Htable; [|done].
    intros [= <-]. by exists entries, s.
  - intros (entries & s & -> & Htype & Htable). cbn -[table_lookup]. unfold subscript.
    rewrite Htype. cbn -[table_lookup]. unfold field_type_of. by rewrite Htable.
Qed.

Lemma result_type_fields_cons (field_name : string) (field_info : json)
    (rest : list (string * json)) :
  result_type_fields ((field_name, field_info) :: rest)
  = match field_info_type field_info ≫= field_type_of with
    | inl e => inl e
    | inr t =>
        match result_type_fields rest with
        | inl e => inl e
        | inr fields => inr ((field_name, t) :: fields)
        end
    end.
Proof.
  cbn [result_type_fields].
  destruct (field_info_type field_info) as [e|key]; [done|]. cbn.
  destruct (field_type_of key) as [e|t]; [done|]. cbn.
  by destruct (result_type_fields rest).
Qed.

End ResultTypeFacts.

(** X21.  The loop of [_resolve_result_type] succeeds exactly on a flat
    configuration, one in which every field is described by a dict whose
    ["type"] is one of the seven names of the table; the fields it builds
    then have the names of the configuration, in its order, each with the
    Python type the table gives for its name. *)
Theorem result_type_fields_success `{Interpreter} (result_type_config : list (string * json))
    (fields : list (string * field_type)) :
  result_type_fields result_type_config = inr fields
  ↔ Forall2
      (λ entry field,
         entry.1 = field.1
         ∧ ∃ entries s,
             entry.2 = JDict entries
             ∧ dict_lookup "type" entries = Some (JStr s)
             ∧ table_lookup s field_type_table = Some field.2)
      result_type_config fields.
Proof.
  revert fields.
  induction result_type_config as [|[field_name field_info] rest IH]; intros fields.
  - cbn. split.
    + intros [= <-]. constructor.
    + intros Hnil. by inversion Hnil.
  - rewrite result_type_fields_cons. split.
    + destruct (field_info_type field_info ≫= field_type_of) as [e|t] eqn:Hfield; [done|].
      destruct (result_type_fields rest) as [e|fields'] eqn:Hrest; [done|].
      intros [= <-]. constructor.
      * split; [done|]. by apply field_resolves.
      * by apply IH.
    + intros Hall. inversion Hall as [|? [name t] ? fields' [Hname Hfield] Hrest]; subst.
      cbn in Hname, Hfield. subst name.
      apply field_resolves in Hfield as ->.
      apply IH in Hrest as ->. reflexivity.
Qed.

(** X22.  The loop stops at the first field that does not resolve and
    raises the exception of that field, whatever the fields after it are. *)
Theorem result_type_fields_first_failure `{Interpreter}
    (good rest : list (string * json)) (fields : list (string * field_type))
    (field_name : string) (field_info : json) (e : exn) :
  result_type_fields good = inr fields →
  field_info_type field_info ≫= field_type_of = inl e →
  result_type_fields (good ++ (field_name, field_info) :: rest) = inl e.
Proof.
  revert fields. induction good as [|[name info] good' IH]; intros fields Hgood Hbad.
  - cbn [app]. by rewrite result_type_fields_cons, Hbad.
  - cbn [app]. rewrite result_type_fields_cons in *.
    destruct (field_info_type info ≫= field_type_of) as [e'|t]; [done|].
    destruct (result_type_fields good') as [e'|fields'] eqn:Hgood'; [done|].
    by rewrite (IH fields').
Qed.

Lemma result_type_fields_first_failure_witness :
  @result_type_fields python_3_11
    [("name", JDict [("type", JStr "string")]);
     ("age", JDict [("type", JStr "int")]);
     ("tags", JStr "array")]
  = inl (PyException "KeyError" "'int'").
Proof.
  exact (@result_type_fields_first_failure python_3_11
           [("name", JDict [("type", JStr "string")])] [("tags", JStr "array")]
           [("name", py_str)] "age" (JDict [("type", JStr "int")])
           (PyException "KeyError" "'int'") eq_refl eq_refl).
Defined.

(** X23.  A configuration in which some field is described by anything but
    a dict is rejected; the JSON-schema form shown in the docstring of
    [create_agent], whose first entry is ["type": "object"], is of that
    kind. *)
Theorem result_type_fields_rejects_non_dict `{Interpreter}
    (result_type_config : list (string * json)) :
  Exists (λ entry, ∀ entries, entry.2 ≠ JDict entries) result_type_config →
  ∃ e, result_type_fields result_type_config = inl e.
Proof.
  induction 1 as [[name info] rest Hinfo|[name info] rest Hrest IH].
  - rewrite result_type_fields_cons.
    destruct (field_info_type info ≫= field_type_of) as [e|t] eqn:Hfield; [by eexists|].
    apply field_resolves in Hfield as (entries & s & Heq & _).
    by destruct (Hinfo entries).
  - rewrite result_type_fields_cons. destruct IH as [e ->].
    destruct (field_info_type info ≫= field_type_of); by eexists.
Qed.

Lemma result_type_fields_rejects_non_dict_witness :
  ∃ e, @result_type_fields python_3_11 Samples.docstring_schema = inl e.
Proof.
  refine (@result_type_fields_rejects_non_dict python_3_11 Samples.docstring_schema _).
  apply Exists_cons_hd. discriminate.
Defined.

(** ** The server-sent-event generator *)

(** X24.  [event_stream] sends one frame for every item that is converted
    before anything fails, in order, and then, if the conversion of an item
    or the iterator raised, one error frame with [str(e)] of that first
    exception; nothing follows the error frame, and a run without a failure
    has no closing frame. *)
Theorem event_stream_frames `{Framework} (items : list pyobj) (fault : option exn) :
  event_stream items fault
  = (sse_frame <$> converted_prefix items)
    ++ match first_failure items fault with
       | Some e => [sse_error_frame e]
       | None => []
       end.
Proof.
  induction items as [|event rest IH]; [by destruct fault|].
  cbn. destruct (to_jsonable_python event) as [e|v]; [done|].
  cbn. by rewrite IH.
Qed.

(** ** The text of the frames *)

Section DumpsFacts.

Lemma printable_ascii_app (s1 s2 : string) :
  printable_ascii (s1 +:+ s2) = printable_ascii s1 && printable_ascii s2.
Proof.
  induction s1 as [|c rest IH]; [done|].
  simpl. rewrite IH. by rewrite andb_assoc.
Qed.

Lemma printable_ascii_escape_char (c : ascii) : printable_ascii (escape_char c) = true.
Proof. by destruct c as [[] [] [] [] [] [] [] []]. Qed.

Lemma printable_ascii_escape_string (s : string) :
  printable_ascii (escape_string s) = true.
Proof.
  induction s as [|c rest IH]; [done|].
  cbn [escape_string]. by rewrite printable_ascii_app, printable_ascii_escape_char, IH.
Qed.

Lemma printable_ascii_dumps_str (s : string) : printable_ascii (dumps_str s) = true.
Proof.
  unfold dumps_str. by rewrite !printable_ascii_app, printable_ascii_escape_string.
Qed.

Lemma printable_ascii_pretty_N_char (x : N) :
  printable_ascii (String (pretty_N_char x) EmptyString) = true.
Proof.
  destruct x as [|p]; [done|].
  do 4 (try (destruct p as [p|p|]; try done)).
Qed.

Lemma printable_ascii_pretty_N_go (x : N) (s : string) :
  printable_ascii s = true → printable_ascii (pretty_N_go x s) = true.
Proof.
  revert s. induction (N.lt_wf_0 x) as [x _ IH]; intros s Hs.
  destruct (decide (x = 0)%N) as [->|Hpos]; [by rewrite pretty_N_go_0|].
  rewrite pretty_N_go_step by lia. apply IH.
  - apply N.div_lt; lia.
  - change (String ?c s) with (String c EmptyString +:+ s).
    by rewrite printable_ascii_app, printable_ascii_pretty_N_char.
Qed.

Lemma printable_ascii_pretty_Z (z : Z) : printable_ascii (pretty z) = true.
Proof.
  assert (∀ p : positive, printable_ascii (pretty p) = true) as Hpos.
  { intros p. unfold pretty, pretty_positive, pretty, pretty_N.
    destruct (decide (N.pos p = 0)%N); [done|].
    by apply printable_ascii_pretty_N_go. }
  destruct z as [|p|p]; [done|apply Hpos|].
  unfold pretty, pretty_Z. by rewrite printable_ascii_app, Hpos.
Qed.

(** The text [json.dumps] gives for any value is printable ASCII. *)
Lemma printable_ascii_json_dumps (v : json) : printable_ascii (json_dumps v) = true.
Proof.
  revert v. fix IH 1. intros [| [] | z | s | items | entries]; try reflexivity.
  - apply printable_ascii_pretty_Z.
  - apply printable_ascii_dumps_str.
  - cbn [json_dumps].
    match goal with
    | |- context [printable_ascii (_ +:+ ?g items +:+ _)] => set (go := g)
    end.
    assert (printable_ascii (go items) = true) as Hitems.
    { induction items as [|x rest IHitems]; [reflexivity|].
      destruct rest as [|y rest'].
      - change (go [x]) with (json_dumps x). apply IH.
      - change (go (x :: y :: rest')) with (json_dumps x +:+ ", " +:+ go (y :: rest')).
        rewrite !printable_ascii_app, (IH x), IHitems. reflexivity. }
    rewrite !printable_ascii_app, Hitems. reflexivity.
  - cbn [json_dumps].
    match goal with
    | |- context [printable_ascii (_ +:+ ?g entries +:+ _)] => set (go := g)
    end.
    assert (printable_ascii (go entries) = true) as Hentries.
    { induction entries as [|[k x] rest IHentries]; [reflexivity|].
      destruct rest as [|y rest'].
      - change (go [(k, x)]) with (dumps_str k +:+ ": " +:+ json_dumps x).
        rewrite !printable_ascii_app, printable_ascii_dumps_str, (IH x). reflexivity.
      - change (go ((k, x) :: y :: rest'))
          with (dumps_str k +:+ ": " +:+ json_dumps x +:+ ", " +:+ go (y :: rest')).
        rewrite !printable_ascii_app, printable_ascii_dumps_str, (IH x), IHentries.
        reflexivity. }
    rewrite !printable_ascii_app, Hentries. reflexivity.
Qed.

End DumpsFacts.

(** X25.  Every frame that [run_and_stream] yields is printable ASCII,
    whatever texts the engine streams and whatever the exception says: the
    serialisation escapes line breaks, control characters and everything
    beyond ASCII. *)
Theorem run_and_stream_frames_printable `{Framework} (agent : Agent.t)
    (request_data : list (string * json)) :
  Forall (λ frame, printable_ascii frame = true)
    (Generator.yielded (run_and_stream agent request_data)).
Proof.
  unfold run_and_stream. cbn [Generator.yielded].
  apply Forall_fmap, Forall_forall. intros ev _. apply printable_ascii_json_dumps.
Qed.

(** X26.  Every frame that [event_stream] sends is a single [data:] line
    closed by an empty line: the text between the prefix and the two line
    feeds is printable ASCII and so holds no line feed of its own. *)
Theorem event_stream_frames_one_line `{Framework} (items : list pyobj)
    (fault : option exn) :
  Forall (λ frame, ∃ text, frame = "data: " +:+ text +:+ LF +:+ LF
                           ∧ printable_ascii text = true)
    (event_stream items fault).
Proof.
  assert (∀ payload, ∃ text, sse_frame payload = "data: " +:+ text +:+ LF +:+ LF
                             ∧ printable_ascii text = true) as Hframe.
  { intros payload. exists (json_dumps payload).
    split; [done|]. apply printable_ascii_json_dumps. }
  induction items as [|event rest IH]; cbn [event_stream].
  - destruct fault as [e|]; repeat constructor. apply Hframe.
  - destruct (to_jsonable_python event) as [e|v]; repeat constructor;
      [apply Hframe..|apply IH].
Qed.

(** ** Crash requests for unknown agents *)

(** X27.  A crash request for an id that is not registered does not end the
    process: it is answered with the 404 [HTTPException], and the requests
    after it are served as if it had not been there. *)
Theorem crash_agent_unknown_id `{Framework} (registry : gmap string Agent.t)
    (agent_id : string) (rest : list request) :
  registry !! agent_id = None →
  serve registry (CrashAgent agent_id :: rest)
  = (([], inl agent_not_found) :: (serve registry rest).1, (serve registry rest).2).
Proof.
  intros Hunknown. cbn [serve handle]. unfold crash_agent. rewrite Hunknown.
  by destruct (serve registry rest).
Qed.

Lemma crash_agent_unknown_id_witness :
  @serve starlette_status_detail Demo.registry
    [CrashAgent "ghost"; LogMessage "ghost" Demo.entry]
  = ([([], inl agent_not_found);
      ([Printed "[2024-01-01 00:00:00] ghost - info: hello"],
       inr (JSONResponse (JDict [("status", JStr "success")]) 200))],
     Some Demo.registry).
Proof.
  exact (@crash_agent_unknown_id starlette_status_detail Demo.registry "ghost"
           [LogMessage "ghost" Demo.entry] eq_refl).
Defined.
